(** * UR5Sim: a shallow embedding of [src/UR5/UR5Sim.py]

    The program drives a UR5 arm through the pybullet simulator.  Every
    call that leaves the Python process (pybullet, [time], [datetime],
    [print], the lively solver) is recorded as an [event] of a trace, in
    program order; what such a call answers is given by a [Simulator],
    whose answers may depend on the whole trace before the call.  Python
    exceptions are the [Raise] outcome of the [M] monad. *)

From Stdlib Require Import PrimFloat ZArith String.
From stdpp Require Import gmap strings list.

Set Warnings "-inexact-float".

Local Open Scope string_scope.
Local Open Scope Z_scope.
Local Open Scope list_scope.

(** ** Python values *)

(** A Python number: the source mixes [int] literals ([0]) with floats
    ([0.04], [math.pi]) in the arrays it hands to pybullet. *)
Variant pynum : Type :=
  | PyInt (z : Z)
  | PyFloat (f : float).

(** [math.pi], the binary64 closest to pi. *)
Definition math_pi : float := 0x1.921fb54442d18p+1%float.

(** The exceptions the modelled code can raise. *)
Variant exn : Type :=
  | KeyError (key : string)
  | IndexError
  | UnicodeDecodeError
  | PybulletError (what : string).

(** ** Text

    A Python [str] is represented by its UTF-8 encoding, a [bytes] by
    its bytes, both as a [string]: decoding is then a check.  The
    encoding of text is one-to-one, so two [str] are equal exactly when
    their representations are. *)

Definition continuation (b : N) : bool := ((128 <=? b) && (b <=? 191))%N.

(** The second byte of a three-byte sequence led by [b0]: no overlong
    form after [0xE0], no surrogate after [0xED]. *)
Definition second_of_three (b0 b1 : N) : bool :=
  (if b0 =? 224 then (160 <=? b1) && (b1 <=? 191)
   else if b0 =? 237 then (128 <=? b1) && (b1 <=? 159)
   else continuation b1)%N.

(** The second byte of a four-byte sequence led by [b0]: no overlong
    form after [0xF0], nothing above U+10FFFF after [0xF4]. *)
Definition second_of_four (b0 b1 : N) : bool :=
  (if b0 =? 240 then (144 <=? b1) && (b1 <=? 191)
   else if b0 =? 244 then (128 <=? b1) && (b1 <=? 143)
   else continuation b1)%N.

(** Well-formed UTF-8, as the strict decoder of Python accepts it. *)
Fixpoint utf8 (bs : list N) : bool :=
  match bs with
  | [] => true
  | b0 :: bs1 =>
      if (b0 <=? 127)%N then utf8 bs1
      else if ((194 <=? b0) && (b0 <=? 223))%N then
        match bs1 with
        | b1 :: bs2 => continuation b1 && utf8 bs2
        | _ => false
        end
      else if ((224 <=? b0) && (b0 <=? 239))%N then
        match bs1 with
        | b1 :: b2 :: bs3 => second_of_three b0 b1 && continuation b2 && utf8 bs3
        | _ => false
        end
      else if ((240 <=? b0) && (b0 <=? 244))%N then
        match bs1 with
        | b1 :: b2 :: b3 :: bs4 =>
            second_of_four b0 b1 && continuation b2 && continuation b3 && utf8 bs4
        | _ => false
        end
      else false
  end.

(** [b.decode("utf-8")]: the text, or [None] where Python raises
    [UnicodeDecodeError]. *)
Definition decode (b : string) : option string :=
  if utf8 (Ascii.N_of_ascii <$> list_ascii_of_string b) then Some b else None.

(** [l[k]] on a Python list: a negative index counts from the end, an
    index outside [-len, len) raises [IndexError]. *)
Definition py_getitem {A : Type} (l : list A) (k : Z) : option A :=
  if bool_decide (0 <= k) then l !! Z.to_nat k
  else if bool_decide (- Z.of_nat (length l) <= k) then l !! Z.to_nat (Z.of_nat (length l) + k)
  else None.

(** [range(n)]. *)
Definition range (n : Z) : list Z := seqZ 0 n.

(** ** Joint descriptors *)

(** The tuple [pybullet.getJointInfo] returns, at the indices the source
    reads.  [info1] is the joint name as pybullet gives it: bytes. *)
Record rawInfo : Type := mk_rawInfo {
  info0 : Z;
  info1 : string;
  info2 : Z;
  info8 : float;
  info9 : float;
  info10 : float;
  info11 : float;
}.

(** The [jointInfo] namedtuple of [__init__]. *)
Module Joint.
Record info : Type := mk {
  id : Z;
  name : string;
  type : string;
  lowerLimit : float;
  upperLimit : float;
  maxForce : float;
  maxVelocity : float;
  controllable : bool;
}.
End Joint.

Definition control_joints : list string :=
  ["shoulder_pan_joint"; "shoulder_lift_joint"; "elbow_joint";
   "wrist_1_joint"; "wrist_2_joint"; "wrist_3_joint"].

Definition joint_type_list : list string :=
  ["REVOLUTE"; "PRISMATIC"; "SPHERICAL"; "PLANAR"; "FIXED"].

Definition ROBOT_URDF_PATH : string := "./ur_e_description/urdf/ur5e.urdf".

(** A joint configuration: a Python [dict] from joint name to target
    value, as the list [joint_angles.items()] iterates, in insertion order. *)
Abbreviation configuration := (list (string * pynum)).

(** ** Events *)

Variant control_mode : Type := VELOCITY_CONTROL | POSITION_CONTROL.

(** One element of [pybullet.getContactPoints()]. *)
Record contact : Type := mk_contact {
  bodyUniqueIdA : Z;
  bodyUniqueIdB : Z;
  linkIndexA : Z;
  linkIndexB : Z;
}.

(** The goals of [solver.solve]: a [Translation] and a [Size]. *)
Record goals : Type := mk_goals {
  position : float * float * float;
  positionLiveliness : float * float * float;
}.

(** What [print] is given. *)
Variant printed : Type :=
  | PStr (s : string)
  | PJoints (joints : configuration).

Variant event : Type :=
  | Connect
  | LoadURDF (path : string) (basePosition baseOrientation : list pynum) (flags : option string)
  | GetNumJoints (body : Z)
  | GetJointInfo (body : Z) (i : Z)
  | SetJointMotorControl2 (body : Z) (jointIndex : Z) (mode : control_mode)
      (targetVelocity force : pynum)
  | SetJointMotorControlArray (body : Z) (indexes : list Z) (mode : control_mode)
      (targetPositions targetVelocities positionGains forces : list pynum)
  | GetContactPoints
  | DatetimeNow
  | Print (what : printed)
  | GetQuaternionFromEuler (orientation : list pynum)
  | CalculateInverseKinematics (body : Z) (endEffector : Z)
      (targetPosition : list pynum) (targetOrientation : list float)
      (jointDamping upperLimits lowerLimits jointRanges : list pynum)
      (restPoses : list pynum)
  | StepSimulation
  | Sleep (seconds : float)
  | TimeTime
  | EtreeParse (path : string)
  | SolverNew (urdf : string)
  | ComputeAverageDistanceTable
  | SolverSolve (g : goals) (time : float).

Abbreviation trace := (list event).

(** ** The world outside the program *)

(** What the calls answer.  The answers of the stateful services are
    functions of the trace before the call.  Of the calls, [loadURDF] is
    the one taken to fail (a description that cannot be instantiated);
    the others return. *)
Record Simulator : Type := mk_Simulator {
  TABLE_URDF_PATH : string;
  (** [loadURDF]: the body id, or [None] when the description does not load. *)
  loadURDF : trace -> string -> option Z;
  getNumJoints : Z -> Z;
  getJointInfo : Z -> Z -> rawInfo;
  getContactPoints : trace -> list contact;
  getQuaternionFromEuler : list pynum -> list float;
  calculateInverseKinematics : trace -> list pynum -> list float -> list float;
  time_time : trace -> float;
  datetime_now : trace -> string;
  etree_parse : string -> string;
  solver_solve : trace -> goals -> float -> configuration;
}.

(** The joints the simulator reports for a body, in index order. *)
Definition reported_joints (sim : Simulator) (body : Z) : list rawInfo :=
  getJointInfo sim body <$> range (getNumJoints sim body).

(** ** The monad of the program: a trace and exceptions *)

Variant outcome (A : Type) : Type :=
  | Ok (a : A)
  | Raise (e : exn).
Arguments Ok {A} a.
Arguments Raise {A} e.

Definition M (A : Type) : Type := trace -> outcome A * trace.

Definition ret {A : Type} (a : A) : M A := fun tr => (Ok a, tr).

Definition raise {A : Type} (e : exn) : M A := fun tr => (Raise e, tr).

Definition bind {A B : Type} (m : M A) (k : A -> M B) : M B :=
  fun tr =>
    match m tr with
    | (Ok a, tr') => k a tr'
    | (Raise e, tr') => (Raise e, tr')
    end.

(** A call to the outside: the event is recorded, the answer is read off
    the trace before it. *)
Definition call {A : Type} (e : event) (answer : trace -> A) : M A :=
  fun tr => (Ok (answer tr), tr ++ [e]).

Declare Scope prog_scope.
Delimit Scope prog_scope with prog.
Notation "x <- m ;; k" := (bind m (fun x => k))
  (at level 100, m at next level, right associativity) : prog_scope.
Notation "m ;; k" := (bind m (fun _ => k))
  (at level 100, right associativity) : prog_scope.
Local Open Scope prog_scope.

(** [for x in l: acc = body acc x], stopping at the first exception. *)
Fixpoint for_each {A S : Type} (l : list A) (body : S -> A -> M S) (acc : S) : M S :=
  match l with
  | [] => ret acc
  | x :: l' => acc' <- body acc x ;; for_each l' body acc'
  end.

(** ** The [UR5Sim] object *)

Record UR5Sim : Type := mk_UR5Sim {
  end_effector_index : Z;
  ur5 : Z;
  num_joints : Z;
  joints : gmap string Joint.info;
}.

Section Program.

Context (sim : Simulator).

(** [UR5Sim.load_robot] (lines 51-55). *)
Definition load_robot : M Z :=
  let flags := "URDF_USE_SELF_COLLISION" in
  let table_path := TABLE_URDF_PATH sim in
  table <- call (LoadURDF table_path
                   [PyFloat 0.5; PyInt 0; PyFloat (-0.6300)]
                   [PyInt 0; PyInt 0; PyInt 0; PyInt 1] None)
                (fun tr => loadURDF sim tr table_path) ;;
  match table with
  | None => raise (PybulletError table_path)
  | Some _ =>
      robot <- call (LoadURDF ROBOT_URDF_PATH
                       [PyInt 0; PyInt 0; PyInt 0]
                       [PyInt 0; PyInt 0; PyInt 0; PyInt 1] (Some flags))
                    (fun tr => loadURDF sim tr ROBOT_URDF_PATH) ;;
      match robot with
      | None => raise (PybulletError ROBOT_URDF_PATH)
      | Some robot => ret robot
      end
  end.

(** The body of the [for i in range(self.num_joints)] loop of
    [__init__] (lines 36-48); [joints] is [self.joints] so far. *)
Definition register_joint (body : Z) (joints : gmap string Joint.info) (i : Z)
  : M (gmap string Joint.info) :=
  info <- call (GetJointInfo body i) (fun _ => getJointInfo sim body i) ;;
  let jointID := info0 info in
  match decode (info1 info) with
  | None => raise UnicodeDecodeError
  | Some jointName =>
  match py_getitem joint_type_list (info2 info) with
  | None => raise IndexError
  | Some jointType =>
      let jointLowerLimit := info8 info in
      let jointUpperLimit := info9 info in
      let jointMaxForce := info10 info in
      let jointMaxVelocity := info11 info in
      let controllable := bool_decide (jointName ∈ control_joints) in
      let info := Joint.mk jointID jointName jointType jointLowerLimit
                    jointUpperLimit jointMaxForce jointMaxVelocity controllable in
      (if String.eqb (Joint.type info) "REVOLUTE"
       then call (SetJointMotorControl2 body (Joint.id info) VELOCITY_CONTROL
                    (PyInt 0) (PyInt 0)) (fun _ => tt)
       else ret tt) ;;
      ret (<[Joint.name info := info]> joints)
  end
  end.

(** [UR5Sim.__init__] (lines 22-48). *)
Definition UR5Sim_init : M UR5Sim :=
  call Connect (fun _ => tt) ;;
  let end_effector_index := 7 in
  ur5 <- load_robot ;;
  num_joints <- call (GetNumJoints ur5) (fun _ => getNumJoints sim ur5) ;;
  joints <- for_each (range num_joints) (register_joint ur5) ∅ ;;
  ret (mk_UR5Sim end_effector_index ur5 num_joints joints).

(** The [for name, pose in joint_angles.items()] loop of
    [set_joint_angles] (lines 63-67): [self.joints[name]] raises
    [KeyError] on a name that is not a key. *)
Fixpoint collect_items (self : UR5Sim) (items : configuration)
    (poses : list pynum) (indexes : list Z) (forces : list pynum)
  : outcome (list pynum * list Z * list pynum) :=
  match items with
  | [] => Ok (poses, indexes, forces)
  | (name, pose) :: items' =>
      match joints self !! name with
      | None => Raise (KeyError name)
      | Some joint =>
          collect_items self items'
            (poses ++ [pose])
            (indexes ++ [Joint.id joint])
            (forces ++ [PyFloat (Joint.maxForce joint)])
      end
  end.

(** [UR5Sim.set_joint_angles] (lines 58-77). *)
Definition set_joint_angles (self : UR5Sim) (joint_angles : configuration) : M unit :=
  match collect_items self joint_angles [] [] [] with
  | Raise e => raise e
  | Ok (poses, indexes, forces) =>
      call (SetJointMotorControlArray (ur5 self) indexes POSITION_CONTROL
              poses
              (replicate (length poses) (PyInt 0))
              (replicate (length poses) (PyFloat 0.04))
              forces)
           (fun _ => tt)
  end.

(** [UR5Sim.check_collisions] (lines 86-91). *)
Definition check_collisions (self : UR5Sim) : M bool :=
  collisions <- call GetContactPoints (getContactPoints sim) ;;
  if bool_decide (0 < Z.of_nat (length collisions)) then
    now <- call DatetimeNow (datetime_now sim) ;;
    call (Print (PStr ("[Collision detected!] " +:+ now))) (fun _ => tt) ;;
    ret true
  else ret false.

(** [UR5Sim.calculate_ik] (lines 94-107). *)
Definition calculate_ik (self : UR5Sim) (position orientation : list pynum)
  : M (list float) :=
  quaternion <- call (GetQuaternionFromEuler orientation)
                     (fun _ => getQuaternionFromEuler sim orientation) ;;
  let lower_limits := replicate 6 (PyFloat (- math_pi)) in
  let upper_limits := replicate 6 (PyFloat math_pi) in
  let joint_ranges := replicate 6 (PyFloat (2 * math_pi)) in
  let rest_poses :=
    [PyInt 0; PyFloat (- math_pi / 2); PyFloat (- math_pi / 2);
     PyFloat (- math_pi / 2); PyFloat (- math_pi / 2); PyInt 0] in
  joint_angles <- call (CalculateInverseKinematics (ur5 self) (end_effector_index self)
                          position quaternion
                          (replicate 6 (PyFloat 0.01)) upper_limits
                          lower_limits joint_ranges rest_poses)
                       (fun tr => calculateInverseKinematics sim tr position quaternion) ;;
  ret joint_angles.

(** The goals of the first [solver.solve] (lines 165-167) and of the one
    in the loop (lines 178-180). *)
Definition first_goals : goals :=
  mk_goals (0.47, -0.03, 0.64)%float (0.11, 0.05, 0.05)%float.

Definition loop_goals : goals :=
  mk_goals (0.47, -0.03, 0.64)%float (0.15, 0.05, 0.4)%float.

(** The [while True] loop of [demo_simulation] (lines 171-180), run for
    [ticks] iterations; [state] is [state.joints] at the head of the loop.
    An exception of the body ends the loop, as it ends the process. *)
Fixpoint control_loop (self : UR5Sim) (ticks : nat) (state : configuration) : M unit :=
  match ticks with
  | O => ret tt
  | S ticks' =>
      set_joint_angles self state ;;
      check_collisions self ;;
      call StepSimulation (fun _ => tt) ;;
      let delay := (1 / 30)%float in
      call (Sleep delay) (fun _ => tt) ;;
      current_time <- call TimeTime (time_time sim) ;;
      state <- call (SolverSolve loop_goals current_time)
                    (fun tr => solver_solve sim tr loop_goals current_time) ;;
      control_loop self ticks' state
  end.

(** [demo_simulation] from the first [time.time()] on (lines 163-180). *)
Definition run_demo (self : UR5Sim) (ticks : nat) : M unit :=
  current_time <- call TimeTime (time_time sim) ;;
  state <- call (SolverSolve first_goals current_time)
                (fun tr => solver_solve sim tr first_goals current_time) ;;
  call (Print (PJoints state)) (fun _ => tt) ;;
  control_loop self ticks state.

(** [demo_simulation] (lines 134-180).  The solver is built from the
    text of the robot description, with the objectives and root bounds
    the source spells out. *)
Definition demo_simulation (ticks : nat) : M unit :=
  self <- UR5Sim_init ;;
  let xml_file := ROBOT_URDF_PATH in
  xml_string <- call (EtreeParse xml_file) (fun _ => etree_parse sim xml_file) ;;
  call (SolverNew xml_string) (fun _ => tt) ;;
  call ComputeAverageDistanceTable (fun _ => tt) ;;
  run_demo self ticks.

End Program.

(** ** Reading a trace *)

(** The joints a motor command of the trace addresses. *)
Definition actuated (e : event) : list Z :=
  match e with
  | SetJointMotorControl2 _ jointIndex _ _ _ => [jointIndex]
  | SetJointMotorControlArray _ indexes _ _ _ _ _ => indexes
  | _ => []
  end.

Definition actuated_joints (tr : trace) : list Z := tr ≫= actuated.

(** The startup command of [__init__] that switches the velocity motor
    of joint [j] off: zero target velocity, zero force. *)
Definition disable_motor (body j : Z) : event :=
  SetJointMotorControl2 body j VELOCITY_CONTROL (PyInt 0) (PyInt 0).

Definition is_velocity_command (e : event) : bool :=
  match e with
  | SetJointMotorControl2 _ _ VELOCITY_CONTROL _ _ => true
  | _ => false
  end.

Definition is_contact_query (e : event) : bool :=
  match e with
  | GetContactPoints => true
  | _ => false
  end.

Definition is_step (e : event) : bool :=
  match e with
  | StepSimulation => true
  | _ => false
  end.

(** The phases of a tick of the control loop.  Logging ([datetime.now],
    [print]) belongs to no phase; anything else is [PSetup]. *)
Variant phase : Type :=
  | PTime
  | PSolve
  | PApply
  | PCheck
  | PStep
  | PSleep (seconds : float)
  | PSetup.

Definition phase_of (e : event) : option phase :=
  match e with
  | TimeTime => Some PTime
  | SolverSolve _ _ => Some PSolve
  | SetJointMotorControlArray _ _ POSITION_CONTROL _ _ _ _ => Some PApply
  | GetContactPoints => Some PCheck
  | StepSimulation => Some PStep
  | Sleep seconds => Some (PSleep seconds)
  | DatetimeNow | Print _ => None
  | _ => Some PSetup
  end.

Definition phases (tr : trace) : list phase := omap phase_of tr.

(** One tick, read from the clock on: time, solve, apply, check, step,
    sleep for a thirtieth of a second. *)
Definition tick : list phase :=
  [PTime; PSolve; PApply; PCheck; PStep; PSleep 0.03333333333333333].

(** The type name [joint_type_list] gives a type code, if any. *)
Definition classify (raw : rawInfo) : option string :=
  py_getitem joint_type_list (info2 raw).

(** Every key of the configuration is a key of [self.joints]. *)
Definition resolves (self : UR5Sim) (joint_angles : configuration) : Prop :=
  forall name, name ∈ joint_angles.*1 -> is_Some (joints self !! name).

(** C1 as the specification words it: whatever configuration with
    registered keys is applied, a joint that receives a motor command is
    the joint of a descriptor marked controllable. *)
Definition actuates_only_controllable (self : UR5Sim) (joint_angles : configuration) : Prop :=
  resolves self joint_angles ->
  forall tr out tr', set_joint_angles self joint_angles tr = (out, tr') ->
  forall j, j ∈ actuated_joints (drop (length tr) tr') ->
  exists name joint,
    joints self !! name = Some joint /\ Joint.id joint = j
    /\ Joint.controllable joint = true.

(** ** What [__init__] amounts to *)

(** The two [loadURDF] events of [load_robot]. *)
Definition table_call (sim : Simulator) : event :=
  LoadURDF (TABLE_URDF_PATH sim) [PyFloat 0.5; PyInt 0; PyFloat (-0.63)]
    [PyInt 0; PyInt 0; PyInt 0; PyInt 1] None.

Definition robot_call : event :=
  LoadURDF ROBOT_URDF_PATH [PyInt 0; PyInt 0; PyInt 0]
    [PyInt 0; PyInt 0; PyInt 0; PyInt 1] (Some "URDF_USE_SELF_COLLISION").

(** Started on trace [tr], [__init__] finds both descriptions loadable,
    the robot as body [robot]. *)
Definition loads (sim : Simulator) (tr : trace) (robot : Z) : Prop :=
  is_Some (loadURDF sim (tr ++ [Connect]) (TABLE_URDF_PATH sim))
  /\ loadURDF sim (tr ++ [Connect; table_call sim]) ROBOT_URDF_PATH = Some robot.

(** The descriptor built from a reported joint of type name [jointType]. *)
Definition descriptor (raw : rawInfo) (jointType : string) : Joint.info :=
  Joint.mk (info0 raw) (info1 raw) jointType (info8 raw) (info9 raw)
    (info10 raw) (info11 raw) (bool_decide (info1 raw ∈ control_joints)).

Definition is_revolute (raw : rawInfo) : bool :=
  match classify raw with
  | Some jointType => String.eqb jointType "REVOLUTE"
  | None => false
  end.

(** The registry after one more joint. *)
Definition register (joints : gmap string Joint.info) (raw : rawInfo)
  : gmap string Joint.info :=
  match classify raw with
  | Some jointType => <[info1 raw := descriptor raw jointType]> joints
  | None => joints
  end.

(** The events of one round of the loop of [__init__]. *)
Definition joint_events (sim : Simulator) (body i : Z) : list event :=
  GetJointInfo body i ::
  (if is_revolute (getJointInfo sim body i)
   then [disable_motor body (info0 (getJointInfo sim body i))]
   else []).

(** C2 as the specification words it: construction completes normally
    only if each of the six names is the name of a reported joint. *)
Definition requires_control_joints (sim : Simulator) : Prop :=
  forall tr self tr', UR5Sim_init sim tr = (Ok self, tr') ->
  forall name, name ∈ control_joints ->
    name ∈ info1 <$> reported_joints sim (ur5 self).

(** C8 as the specification words it: a reported joint gets the startup
    command exactly when it is one of the six and REVOLUTE. *)
Definition disables_only_control_joints (sim : Simulator) : Prop :=
  forall tr self tr', UR5Sim_init sim tr = (Ok self, tr') ->
  forall raw, raw ∈ reported_joints sim (ur5 self) ->
    (disable_motor (ur5 self) (info0 raw) ∈ drop (length tr) tr'
     <-> info1 raw ∈ control_joints /\ classify raw = Some "REVOLUTE").

(** Every descriptor sits under its own name and is marked controllable
    exactly when that name is one of [control_joints]. *)
Definition well_keyed (joints : gmap string Joint.info) : Prop :=
  forall name joint, joints !! name = Some joint ->
    Joint.name joint = name
    /\ Joint.controllable joint = bool_decide (name ∈ control_joints).

Definition is_print (e : event) : bool :=
  match e with
  | Print _ => true
  | _ => false
  end.

(** What [check_collisions] logs after a contact query asked on trace
    [tr]: the time, then the line with the time in it. *)
Definition collision_log (sim : Simulator) (tr : trace) : list event :=
  [DatetimeNow;
   Print (PStr ("[Collision detected!] "
                +:+ datetime_now sim (tr ++ [GetContactPoints])))].

(** A tick as the loop body runs it: from the actuation on. *)
Definition loop_body_phases : list phase :=
  [PApply; PCheck; PStep; PSleep 0.03333333333333333; PTime; PSolve].

(** ** A bench to run the program on *)

(** The joints pybullet reports for the UR5e description. *)
Definition ur5e_joints : list rawInfo :=
  [ mk_rawInfo 0 "world_joint" 4 0 (-1) 0 0;
    mk_rawInfo 1 "shoulder_pan_joint" 0 (-6.283185307179586) 6.283185307179586 150 3.15;
    mk_rawInfo 2 "shoulder_lift_joint" 0 (-6.283185307179586) 6.283185307179586 150 3.15;
    mk_rawInfo 3 "elbow_joint" 0 (-3.141592653589793) 3.141592653589793 150 3.15;
    mk_rawInfo 4 "wrist_1_joint" 0 (-6.283185307179586) 6.283185307179586 28 3.2;
    mk_rawInfo 5 "wrist_2_joint" 0 (-6.283185307179586) 6.283185307179586 28 3.2;
    mk_rawInfo 6 "wrist_3_joint" 0 (-6.283185307179586) 6.283185307179586 28 3.2;
    mk_rawInfo 7 "ee_fixed_joint" 4 0 (-1) 0 0;
    mk_rawInfo 8 "wrist_3_link-tool0_fixed_joint" 4 0 (-1) 0 0;
    mk_rawInfo 9 "base_link-base_fixed_joint" 4 0 (-1) 0 0 ].

(** The same arm with a revolute gripper joint mounted on the tool. *)
Definition gripper_joints : list rawInfo :=
  ur5e_joints ++ [ mk_rawInfo 10 "finger_joint" 0 0 0.8 20 2 ].

(** An arm whose description lacks the last wrist joint. *)
Definition five_axis_joints : list rawInfo := take 6 ur5e_joints.

Definition rest_state : configuration :=
  [ ("shoulder_pan_joint", PyFloat 0);
    ("shoulder_lift_joint", PyFloat (- math_pi / 2));
    ("elbow_joint", PyFloat (- math_pi / 2));
    ("wrist_1_joint", PyFloat (- math_pi / 2));
    ("wrist_2_joint", PyFloat (- math_pi / 2));
    ("wrist_3_joint", PyFloat 0) ].

Definition is_load (e : event) : bool :=
  match e with
  | LoadURDF _ _ _ _ => true
  | _ => false
  end.

(** A simulator in which both descriptions load (the table as body 0,
    the robot as body 1), the robot has the joints [robot], every contact
    query answers [contacts], and the solver answers [state]. *)
Definition bench (robot : list rawInfo) (contacts : list contact)
    (state : configuration) : Simulator :=
  {| TABLE_URDF_PATH := "/usr/lib/pybullet_data/table/table.urdf";
     loadURDF := fun tr _ => Some (Z.of_nat (length (filter is_load tr)));
     getNumJoints := fun body => if bool_decide (body = 1) then Z.of_nat (length robot) else 0;
     getJointInfo := fun _ i => default (mk_rawInfo i "" 4 0 0 0 0) (robot !! Z.to_nat i);
     getContactPoints := fun _ => contacts;
     getQuaternionFromEuler := fun _ => [0; 0; 0; 1]%float;
     calculateInverseKinematics := fun _ _ _ => [0; 0; 0; 0; 0; 0]%float;
     time_time := fun _ => 1730000000%float;
     datetime_now := fun _ => "2024-11-04 12:00:00.000000";
     etree_parse := fun _ => "<robot/>";
     solver_solve := fun _ _ _ => state |}.

(** The [UR5Sim] object [__init__] builds on a bench. *)
Definition built (robot : list rawInfo) : UR5Sim :=
  mk_UR5Sim 7 1 (Z.of_nat (length robot)) (foldl register ∅ robot).

Definition ur5e_bench : Simulator := bench ur5e_joints [] rest_state.

Definition ur5e_self : UR5Sim := built ur5e_joints.

(** A configuration that names a registered joint which is not one of
    the six: the fixed joint that carries the end effector. *)
Definition fixed_joint_state : configuration := [("ee_fixed_joint", PyFloat 0)].

(** The five-axis bench: the last wrist joint is not reported. *)
Definition five_axis_bench : Simulator := bench five_axis_joints [] rest_state.

(** The gripper bench: a revolute joint that is not one of the six. *)
Definition gripper_bench : Simulator := bench gripper_joints [] rest_state.

(** A joint [__init__] gets past: its name decodes and its type code
    has a name in [joint_type_list]. *)
Definition registrable (raw : rawInfo) : Prop :=
  is_Some (decode (info1 raw)) /\ is_Some (classify raw).

(** ** More ways to read a trace *)

(** Any command to a joint motor, single or batched, in any mode. *)
Definition is_motor_command (e : event) : bool :=
  match e with
  | SetJointMotorControl2 _ _ _ _ _ => true
  | SetJointMotorControlArray _ _ _ _ _ _ _ => true
  | _ => false
  end.

(** What [__init__] may do: connect, load, count and describe joints,
    and switch a velocity motor off. *)
Definition startup_event (e : event) : Prop :=
  match e with
  | Connect | LoadURDF _ _ _ _ | GetNumJoints _ | GetJointInfo _ _ => True
  | SetJointMotorControl2 _ _ VELOCITY_CONTROL (PyInt 0) (PyInt 0) => True
  | _ => False
  end.

(** The configuration the solver answered last, if it was asked at
    all: [solved_from sim before rest last] reads the events [rest],
    which come after the trace [before]. *)
Fixpoint solved_from (sim : Simulator) (before rest : trace)
    (last : option configuration) : option configuration :=
  match rest with
  | [] => last
  | e :: rest' =>
      solved_from sim (before ++ [e]) rest'
        (match e with
         | SolverSolve g time => Some (solver_solve sim before g time)
         | _ => last
         end)
  end.

Definition last_solved (sim : Simulator) (tr : trace) : option configuration :=
  solved_from sim [] tr None.

(** Every event of [new], which comes after the trace [before],
    satisfies [P] together with the trace before it and the events
    after it. *)
Fixpoint each_event (P : trace -> event -> trace -> Prop) (before new : trace) : Prop :=
  match new with
  | [] => True
  | e :: after => P before e after /\ each_event P (before ++ [e]) after
  end.

(** A motor command is the one [set_joint_angles] issues for the
    configuration the solver answered last. *)
Definition applies_last_solved (sim : Simulator) (self : UR5Sim)
    (before : trace) (e : event) : Prop :=
  is_motor_command e = true ->
  exists state,
    last_solved sim before = Some state
    /\ set_joint_angles self state before = (Ok tt, before ++ [e]).

(** A contact query opens what [check_collisions] does at that point. *)
Definition runs_check (sim : Simulator) (self : UR5Sim)
    (before : trace) (e : event) (after : trace) : Prop :=
  is_contact_query e = true ->
  exists b checked rest,
    check_collisions sim self before = (Ok b, before ++ checked)
    /\ e :: after = checked ++ rest.

(** A solver call comes right after a clock reading and is given it. *)
Definition solves_on_time (sim : Simulator) (before : trace) (e : event) : Prop :=
  forall g time, e = SolverSolve g time ->
    exists before', before = before' ++ [TimeTime] /\ time = time_time sim before'.

(** The discipline of the control loop, event by event. *)
Definition obeys (sim : Simulator) (self : UR5Sim)
    (before : trace) (e : event) (after : trace) : Prop :=
  applies_last_solved sim self before e
  /\ runs_check sim self before e after
  /\ solves_on_time sim before e.

Definition is_joint_query (e : event) : bool :=
  match e with
  | GetJointInfo _ _ => true
  | _ => false
  end.

Definition is_solver_new (e : event) : bool :=
  match e with
  | SolverNew _ => true
  | _ => false
  end.

(** The goals of a [solver.solve] call. *)
Definition goals_of (e : event) : option goals :=
  match e with
  | SolverSolve g _ => Some g
  | _ => None
  end.

(** Every [solver.solve] of the trace comes right after a [time.time()]
    and is given the reading that call answered. *)
Definition clocked (sim : Simulator) (tr : trace) : Prop :=
  forall (i : nat) g time, tr !! i = Some (SolverSolve g time) ->
    exists i' : nat, i = S i' /\ tr !! i' = Some TimeTime
      /\ time = time_time sim (take i' tr).

(** ** More benches *)

(** An arm with a point-to-point joint (type code 5) after the elbow. *)
Definition ball_joints : list rawInfo :=
  take 4 ur5e_joints ++ [ mk_rawInfo 4 "ball_joint" 5 0 0 0 0 ] ++ drop 4 ur5e_joints.

Definition ball_bench : Simulator := bench ball_joints [] rest_state.

(** A bench on which no description loads. *)
Definition no_description_bench : Simulator :=
  {| TABLE_URDF_PATH := TABLE_URDF_PATH ur5e_bench;
     loadURDF := fun _ _ => None;
     getNumJoints := getNumJoints ur5e_bench;
     getJointInfo := getJointInfo ur5e_bench;
     getContactPoints := getContactPoints ur5e_bench;
     getQuaternionFromEuler := getQuaternionFromEuler ur5e_bench;
     calculateInverseKinematics := calculateInverseKinematics ur5e_bench;
     time_time := time_time ur5e_bench;
     datetime_now := datetime_now ur5e_bench;
     etree_parse := etree_parse ur5e_bench;
     solver_solve := solver_solve ur5e_bench |}.

(** An arm that reports two joints under one name. *)
Definition twin_joints : list rawInfo :=
  [ mk_rawInfo 0 "elbow_joint" 0 (-1) 1 150 3.15;
    mk_rawInfo 1 "wrist_1_joint" 0 (-1) 1 28 3.2;
    mk_rawInfo 2 "elbow_joint" 1 0 0.5 40 1 ].

Definition twin_bench : Simulator := bench twin_joints [] rest_state.

(** The UR5e bench with the arm resting on the table: every contact
    query finds a contact. *)
Definition contact_bench : Simulator :=
  bench ur5e_joints [mk_contact 0 1 (-1) 3] rest_state.

(** An arm one of whose joint names is not UTF-8 (a lone byte 255). *)
Definition mangled_joints : list rawInfo :=
  take 2 ur5e_joints
  ++ [ mk_rawInfo 2 (String (Ascii.ascii_of_N 255) "_joint") 7 0 0 0 0 ]
  ++ drop 2 ur5e_joints.

Definition mangled_bench : Simulator := bench mangled_joints [] rest_state.

(** ** The debug interface: sliders, joint states, link state

    [add_gui_sliders], [read_gui_sliders], [get_joint_angles] and
    [get_current_pose] talk to parts of pybullet the rest of the
    program does not use; they are embedded with events, answers and
    exceptions of their own, in the same style. *)

Module Gui.

Variant exn : Type :=
  | AttributeError (attribute : string)
  | IndexError
  | TypeError.

Variant event : Type :=
  | AddUserDebugParameter (paramName : string) (rangeMin rangeMax startValue : pynum)
  | ReadUserDebugParameter (itemUniqueId : Z)
  | GetJointStates (body : Z) (jointIndices : list Z)
  | GetLinkState (body : Z) (linkIndex : Z) (computeForwardKinematics : bool).

(** One element of [pybullet.getJointStates]: position, velocity,
    reaction forces, applied torque. *)
Record jointState : Type := mk_jointState {
  state0 : float;
  state1 : float;
  state2 : list float;
  state3 : float;
}.

(** The tuple [pybullet.getLinkState] returns, at the indices the source
    reads: world position and world orientation of the link. *)
Record linkState : Type := mk_linkState {
  linkstate0 : list float;
  linkstate1 : list float;
}.

(** What the calls answer, given the trace before the call; the calls
    are taken to return.  [getLinkState] answers [None], as pybullet
    does, for a link the body does not have. *)
Record Debugger : Type := mk_Debugger {
  addUserDebugParameter : list event -> Z;
  readUserDebugParameter : list event -> Z -> float;
  getJointStates : list event -> Z -> list Z -> list jointState;
  getLinkState : list event -> Z -> Z -> option linkState;
}.

Variant outcome (A : Type) : Type :=
  | Ok (a : A)
  | Raise (e : exn).
Arguments Ok {A} a.
Arguments Raise {A} e.

Definition M (A : Type) : Type := list event -> outcome A * list event.

Definition ret {A : Type} (a : A) : M A := fun tr => (Ok a, tr).

Definition raise {A : Type} (e : exn) : M A := fun tr => (Raise e, tr).

Definition bind {A B : Type} (m : M A) (k : A -> M B) : M B :=
  fun tr =>
    match m tr with
    | (Ok a, tr') => k a tr'
    | (Raise e, tr') => (Raise e, tr')
    end.

Definition call {A : Type} (e : event) (answer : list event -> A) : M A :=
  fun tr => (Ok (answer tr), tr ++ [e]).

Declare Scope gui_scope.
Delimit Scope gui_scope with gui.
Notation "x <- m ;; k" := (bind m (fun x => k))
  (at level 100, m at next level, right associativity) : gui_scope.
Local Open Scope gui_scope.

Section Program.

Context (dbg : Debugger).

(** [UR5Sim.get_joint_angles] (lines 80-83). *)
Definition get_joint_angles (self : UR5Sim) : M (list float) :=
  j <- call (GetJointStates (ur5 self) [1; 2; 3; 4; 5; 6])
            (fun tr => getJointStates dbg tr (ur5 self) [1; 2; 3; 4; 5; 6]) ;;
  let joints := state0 <$> j in
  ret joints.

(** One [self.sliders.append(pybullet.addUserDebugParameter(...))]. *)
Definition add_slider (sliders : list Z) (paramName : string)
    (rangeMin rangeMax startValue : pynum) : M (list Z) :=
  item <- call (AddUserDebugParameter paramName rangeMin rangeMax startValue)
               (addUserDebugParameter dbg) ;;
  ret (sliders ++ [item]).

(** [UR5Sim.add_gui_sliders] (lines 110-117); the result is the new
    value of the attribute [self.sliders]. *)
Definition add_gui_sliders (self : UR5Sim) : M (list Z) :=
  let sliders := [] in
  sliders <- add_slider sliders "X" (PyInt 0) (PyInt 1) (PyFloat 0.4) ;;
  sliders <- add_slider sliders "Y" (PyInt (-1)) (PyInt 1) (PyInt 0) ;;
  sliders <- add_slider sliders "Z" (PyFloat 0.3) (PyInt 1) (PyFloat 0.4) ;;
  sliders <- add_slider sliders "Rx" (PyFloat (- math_pi / 2)) (PyFloat (math_pi / 2))
               (PyInt 0) ;;
  sliders <- add_slider sliders "Ry" (PyFloat (- math_pi / 2)) (PyFloat (math_pi / 2))
               (PyInt 0) ;;
  sliders <- add_slider sliders "Rz" (PyFloat (- math_pi / 2)) (PyFloat (math_pi / 2))
               (PyInt 0) ;;
  ret sliders.

(** One [pybullet.readUserDebugParameter(self.sliders[k])]; [sliders] is
    the attribute [self.sliders], [None] while it has not been set. *)
Definition read_slider (sliders : option (list Z)) (k : Z) : M float :=
  match sliders with
  | None => raise (AttributeError "sliders")
  | Some sliders =>
      match py_getitem sliders k with
      | None => raise IndexError
      | Some item =>
          call (ReadUserDebugParameter item)
               (fun tr => readUserDebugParameter dbg tr item)
      end
  end.

(** [UR5Sim.read_gui_sliders] (lines 120-127). *)
Definition read_gui_sliders (self : UR5Sim) (sliders : option (list Z))
  : M (list float) :=
  x <- read_slider sliders 0 ;;
  y <- read_slider sliders 1 ;;
  z <- read_slider sliders 2 ;;
  Rx <- read_slider sliders 3 ;;
  Ry <- read_slider sliders 4 ;;
  Rz <- read_slider sliders 5 ;;
  ret [x; y; z; Rx; Ry; Rz].

(** [UR5Sim.get_current_pose] (lines 129-132): indexing [None] raises
    [TypeError]. *)
Definition get_current_pose (self : UR5Sim) : M (list float * list float) :=
  linkstate <- call (GetLinkState (ur5 self) (end_effector_index self) true)
                    (fun tr => getLinkState dbg tr (ur5 self) (end_effector_index self)) ;;
  match linkstate with
  | None => raise TypeError
  | Some linkstate =>
      let position := linkstate0 linkstate in
      let orientation := linkstate1 linkstate in
      ret (position, orientation)
  end.

End Program.

(** A debugger for a body of [links] links: it hands out item ids 0,
    1, 2, ..., and its sliders all stand at a quarter. *)
Definition bench_of (links : Z) : Debugger :=
  {| addUserDebugParameter := fun tr => Z.of_nat (length tr);
     readUserDebugParameter := fun _ _ => 0.25%float;
     getJointStates := fun _ _ jointIndices =>
       (fun _ => mk_jointState 0 0 [0; 0; 0; 0; 0; 0]%float 0) <$> jointIndices;
     getLinkState := fun _ _ link =>
       if bool_decide (0 <= link < links)
       then Some (mk_linkState [0.4; 0; 0.4]%float [0; 0; 0; 1]%float)
       else None |}.

(** The debugger of the UR5e bench, whose body has ten links. *)
Definition bench : Debugger := bench_of 10.

End Gui.

(** ** The monad *)

Lemma bind_Ok {A B : Type} (m : M A) (k : A -> M B) tr a tr' :
  m tr = (Ok a, tr') -> bind m k tr = k a tr'.
Proof. intros Hm. unfold bind. by rewrite Hm. Qed.

Lemma bind_Raise {A B : Type} (m : M A) (k : A -> M B) tr e tr' :
  m tr = (Raise e, tr') -> bind m k tr = (Raise e, tr').
Proof. intros Hm. unfold bind. by rewrite Hm. Qed.

Lemma bind_call {A B : Type} (e : event) (answer : trace -> A) (k : A -> M B) tr :
  bind (call e answer) k tr = k (answer tr) (tr ++ [e]).
Proof. reflexivity. Qed.

(** What a computation returned [Ok], read backwards through a [bind]. *)
Lemma bind_Ok_inv {A B : Type} (m : M A) (k : A -> M B) tr b tr' :
  bind m k tr = (Ok b, tr') ->
  exists a tr1, m tr = (Ok a, tr1) /\ k a tr1 = (Ok b, tr').
Proof.
  unfold bind. destruct (m tr) as [[a|e] tr1]; [eauto | discriminate].
Qed.

(** ** [set_joint_angles]: the loop over the items *)

Section Collect.

Context (self : UR5Sim).

Lemma resolves_cons name pose items :
  resolves self ((name, pose) :: items) <->
  is_Some (joints self !! name) /\ resolves self items.
Proof.
  unfold resolves. cbn. split.
  - intros H. split; [apply H; left | intros n Hn; apply H; by right].
  - intros [H1 H2] n [->|Hn]%elem_of_cons; auto.
Qed.

(** When every key resolves, the loop appends one slot per item to each
    of its three arrays, index by index. *)
Lemma collect_items_resolved items : forall poses indexes forces,
  resolves self items ->
  exists ps ixs fs,
    collect_items self items poses indexes forces
      = Ok (poses ++ ps, indexes ++ ixs, forces ++ fs)
    /\ length ps = length items
    /\ length ixs = length items
    /\ length fs = length items
    /\ forall (i : nat) name pose, items !! i = Some (name, pose) ->
         exists joint, joints self !! name = Some joint
           /\ ps !! i = Some pose
           /\ ixs !! i = Some (Joint.id joint)
           /\ fs !! i = Some (PyFloat (Joint.maxForce joint)).
Proof.
  induction items as [|[name pose] items IH]; intros poses indexes forces Hres.
  - exists [], [], []. cbn. rewrite !app_nil_r. repeat split. intros i ? ? Hi. done.
  - apply resolves_cons in Hres as [[joint Hjoint] Hres].
    destruct (IH (poses ++ [pose]) (indexes ++ [Joint.id joint])
                (forces ++ [PyFloat (Joint.maxForce joint)]) Hres)
      as (ps & ixs & fs & Heq & Hps & Hixs & Hfs & Hslots).
    exists (pose :: ps), (Joint.id joint :: ixs), (PyFloat (Joint.maxForce joint) :: fs).
    cbn. rewrite Hjoint, Heq, <- !app_assoc. cbn.
    repeat split; try congruence.
    intros [|i] n p Hi; cbn in *.
    + injection Hi as <- <-. eauto.
    + eauto.
Qed.

(** The loop raises exactly [KeyError] of the first key that is not
    registered. *)
Lemma collect_items_unresolved items : forall poses indexes forces,
  ~ resolves self items ->
  exists name, name ∈ items.*1 /\ joints self !! name = None
    /\ collect_items self items poses indexes forces = Raise (KeyError name).
Proof.
  induction items as [|[name pose] items IH]; intros poses indexes forces Hres.
  - destruct Hres. intros n Hn. cbn in Hn. by apply elem_of_nil in Hn.
  - cbn. destruct (joints self !! name) as [joint|] eqn:Hjoint.
    + destruct (IH (poses ++ [pose]) (indexes ++ [Joint.id joint])
                  (forces ++ [PyFloat (Joint.maxForce joint)]))
        as (n & Hn & Hnone & Heq).
      * intros Hres'. apply Hres, resolves_cons. rewrite Hjoint. eauto.
      * exists n. split; [by right | done].
    + exists name. split; [by left | done].
Qed.

Lemma resolves_dec items : resolves self items \/ ~ resolves self items.
Proof.
  destruct (decide (Forall (fun name => is_Some (joints self !! name)) items.*1)) as [H|H];
    [left | right]; unfold resolves; by rewrite <- Forall_forall.
Qed.

End Collect.

(** ** [set_joint_angles] *)

Section SetJointAngles.

Context (self : UR5Sim).

Lemma set_joint_angles_resolved joint_angles tr :
  resolves self joint_angles ->
  exists ps ixs fs,
    set_joint_angles self joint_angles tr
      = (Ok tt, tr ++ [SetJointMotorControlArray (ur5 self) ixs POSITION_CONTROL ps
                         (replicate (length ps) (PyInt 0))
                         (replicate (length ps) (PyFloat 0.04)) fs])
    /\ length ps = length joint_angles
    /\ length ixs = length joint_angles
    /\ length fs = length joint_angles
    /\ forall (i : nat) name pose, joint_angles !! i = Some (name, pose) ->
         exists joint, joints self !! name = Some joint
           /\ ps !! i = Some pose
           /\ ixs !! i = Some (Joint.id joint)
           /\ fs !! i = Some (PyFloat (Joint.maxForce joint)).
Proof.
  intros Hres.
  destruct (collect_items_resolved self joint_angles [] [] [] Hres)
    as (ps & ixs & fs & Heq & Hlen).
  exists ps, ixs, fs. split; [ | exact Hlen ].
  unfold set_joint_angles. rewrite Heq. reflexivity.
Qed.

Lemma set_joint_angles_unresolved joint_angles tr :
  ~ resolves self joint_angles ->
  exists name, name ∈ joint_angles.*1 /\ joints self !! name = None
    /\ set_joint_angles self joint_angles tr = (Raise (KeyError name), tr).
Proof.
  intros Hres.
  destruct (collect_items_unresolved self joint_angles [] [] [] Hres)
    as (name & Hin & Hnone & Heq).
  exists name. repeat split; try done.
  unfold set_joint_angles. by rewrite Heq.
Qed.

(** C3: [set_joint_angles] raises [KeyError], and issues no command at
    all, exactly when some key of the configuration is not registered;
    it returns normally exactly when every key resolves. *)
Theorem set_joint_angles_fails_loudly joint_angles tr :
  ((exists name, name ∈ joint_angles.*1 /\ joints self !! name = None) <->
   (exists name, name ∈ joint_angles.*1 /\ joints self !! name = None
      /\ set_joint_angles self joint_angles tr = (Raise (KeyError name), tr)))
  /\ (resolves self joint_angles <->
      exists tr', set_joint_angles self joint_angles tr = (Ok tt, tr')).
Proof.
  split; split.
  - intros (name & Hin & Hnone). apply set_joint_angles_unresolved.
    intros Hres. destruct (Hres name Hin) as [joint Hjoint]. congruence.
  - intros (name & Hin & Hnone & _). eauto.
  - intros Hres.
    destruct (set_joint_angles_resolved joint_angles tr Hres) as (ps & ixs & fs & Heq & _).
    eauto.
  - intros [tr' Hok]. destruct (resolves_dec self joint_angles) as [Hres|Hres]; [done|].
    destruct (set_joint_angles_unresolved joint_angles tr Hres) as (name & _ & _ & Heq).
    congruence.
Qed.

(** C4: when every key resolves, [set_joint_angles] issues one batched
    position-control command; its arrays have one slot per entry of the
    configuration, the target velocities are all [0], the position gains
    all [0.04], and slot [i] holds the id, the target and the registered
    [maxForce] of the joint the [i]-th entry names. *)
Theorem set_joint_angles_batched joint_angles tr :
  resolves self joint_angles ->
  exists indexes poses velocities gains forces,
    set_joint_angles self joint_angles tr
      = (Ok tt, tr ++ [SetJointMotorControlArray (ur5 self) indexes POSITION_CONTROL
                         poses velocities gains forces])
    /\ length indexes = length joint_angles
    /\ length poses = length joint_angles
    /\ length velocities = length joint_angles
    /\ length gains = length joint_angles
    /\ length forces = length joint_angles
    /\ Forall (fun v => v = PyInt 0) velocities
    /\ Forall (fun g => g = PyFloat 0.04) gains
    /\ forall (i : nat) name pose, joint_angles !! i = Some (name, pose) ->
         exists joint, joints self !! name = Some joint
           /\ indexes !! i = Some (Joint.id joint)
           /\ poses !! i = Some pose
           /\ forces !! i = Some (PyFloat (Joint.maxForce joint)).
Proof.
  intros Hres.
  destruct (set_joint_angles_resolved joint_angles tr Hres)
    as (ps & ixs & fs & Heq & Hps & Hixs & Hfs & Hslots).
  exists ixs, ps, (replicate (length ps) (PyInt 0)),
    (replicate (length ps) (PyFloat 0.04)), fs.
  rewrite !length_replicate.
  repeat split; try done.
  - apply Forall_replicate. reflexivity.
  - apply Forall_replicate. reflexivity.
  - intros i name pose Hi. destruct (Hslots i name pose Hi) as (joint & ? & ? & ? & ?).
    eauto 6.
Qed.

(** C10: an empty configuration raises nothing; the one command issued
    has empty arrays and addresses no joint. *)
Theorem set_joint_angles_empty tr :
  set_joint_angles self [] tr
    = (Ok tt, tr ++ [SetJointMotorControlArray (ur5 self) [] POSITION_CONTROL [] [] [] []])
  /\ actuated_joints [SetJointMotorControlArray (ur5 self) [] POSITION_CONTROL [] [] [] []] = [].
Proof. split; reflexivity. Qed.

(** C1 (amended): when every key of the configuration names a registered
    joint that is marked controllable, every joint the command addresses
    is the joint of a controllable descriptor, named by a key. *)
Theorem set_joint_angles_controllable joint_angles tr :
  (forall name, name ∈ joint_angles.*1 ->
     exists joint, joints self !! name = Some joint /\ Joint.controllable joint = true) ->
  exists new,
    set_joint_angles self joint_angles tr = (Ok tt, tr ++ new)
    /\ forall j, j ∈ actuated_joints new ->
         exists name joint, name ∈ joint_angles.*1
           /\ joints self !! name = Some joint /\ Joint.id joint = j
           /\ Joint.controllable joint = true.
Proof.
  intros Hctl.
  assert (Hres : resolves self joint_angles).
  { intros name Hin. destruct (Hctl name Hin) as (joint & -> & _). eauto. }
  destruct (set_joint_angles_resolved joint_angles tr Hres)
    as (ps & ixs & fs & Heq & Hps & Hixs & Hfs & Hslots).
  eexists. split; [exact Heq|].
  intros j Hj. unfold actuated_joints in Hj. cbn in Hj. rewrite app_nil_r in Hj.
  apply list_elem_of_lookup in Hj as [i Hi].
  assert (Hlt : (i < length joint_angles)%nat).
  { rewrite <- Hixs. by eapply lookup_lt_Some. }
  destruct (lookup_lt_is_Some_2 joint_angles i Hlt) as [[name pose] Hitem].
  destruct (Hslots i name pose Hitem) as (joint & Hjoint & _ & Hid & _).
  assert (Hin : name ∈ joint_angles.*1).
  { apply list_elem_of_fmap. exists (name, pose). split; [done|].
    apply list_elem_of_lookup. eauto. }
  destruct (Hctl name Hin) as (joint' & Hjoint' & Hc).
  exists name, joint. repeat split; try done; congruence.
Qed.

End SetJointAngles.

(** ** [__init__] *)

Section Init.

Context (sim : Simulator).

Lemma load_robot_Ok_inv tr robot tr' :
  load_robot sim tr = (Ok robot, tr') ->
  is_Some (loadURDF sim tr (TABLE_URDF_PATH sim))
  /\ loadURDF sim (tr ++ [table_call sim]) ROBOT_URDF_PATH = Some robot
  /\ tr' = tr ++ [table_call sim; robot_call].
Proof.
  unfold load_robot. rewrite bind_call.
  destruct (loadURDF sim tr (TABLE_URDF_PATH sim)) as [table|] eqn:Htable; [|discriminate].
  rewrite bind_call. fold (table_call sim).
  destruct (loadURDF sim (tr ++ [table_call sim]) ROBOT_URDF_PATH) as [r|] eqn:Hrobot;
    [|discriminate].
  intros [= -> <-]. rewrite <- app_assoc. eauto.
Qed.

Lemma load_robot_loads tr table robot :
  loadURDF sim tr (TABLE_URDF_PATH sim) = Some table ->
  loadURDF sim (tr ++ [table_call sim]) ROBOT_URDF_PATH = Some robot ->
  load_robot sim tr = (Ok robot, tr ++ [table_call sim; robot_call]).
Proof.
  intros Htable Hrobot. unfold load_robot. rewrite bind_call, Htable, bind_call.
  fold (table_call sim). rewrite Hrobot, <- app_assoc. reflexivity.
Qed.

Lemma decode_Some b text : decode b = Some text -> text = b.
Proof. unfold decode. destruct (utf8 _); congruence. Qed.

Lemma decode_is_Some b : is_Some (decode b) -> decode b = Some b.
Proof. intros [text Htext]. by rewrite Htext, (decode_Some _ _ Htext). Qed.

(** One round of the loop: on a joint whose name decodes and whose type
    code is in range, on one whose type code is not, and on one whose
    name does not decode. *)
Lemma register_joint_classified body joints i tr jointType :
  is_Some (decode (info1 (getJointInfo sim body i))) ->
  classify (getJointInfo sim body i) = Some jointType ->
  register_joint sim body joints i tr
    = (Ok (register joints (getJointInfo sim body i)), tr ++ joint_events sim body i).
Proof.
  intros Hname%decode_is_Some Hty.
  unfold register_joint, register, joint_events, is_revolute.
  rewrite bind_call, Hname. unfold classify in *. rewrite Hty. cbn.
  destruct (String.eqb jointType "REVOLUTE"); cbn.
  - unfold bind, call, ret. rewrite <- app_assoc. reflexivity.
  - reflexivity.
Qed.

Lemma register_joint_unclassified body joints i tr :
  is_Some (decode (info1 (getJointInfo sim body i))) ->
  classify (getJointInfo sim body i) = None ->
  register_joint sim body joints i tr = (Raise IndexError, tr ++ [GetJointInfo body i]).
Proof.
  intros Hname%decode_is_Some Hty. unfold register_joint. rewrite bind_call, Hname.
  unfold classify in *. rewrite Hty. reflexivity.
Qed.

Lemma register_joint_undecodable body joints i tr :
  decode (info1 (getJointInfo sim body i)) = None ->
  register_joint sim body joints i tr
    = (Raise UnicodeDecodeError, tr ++ [GetJointInfo body i]).
Proof. intros Hname. unfold register_joint. rewrite bind_call, Hname. reflexivity. Qed.

(** The whole loop. *)
Lemma register_all body l : forall joints tr,
  Forall (fun i => registrable (getJointInfo sim body i)) l ->
  for_each l (register_joint sim body) joints tr
    = (Ok (foldl register joints (getJointInfo sim body <$> l)),
       tr ++ (l ≫= joint_events sim body)).
Proof.
  induction l as [|i l IH]; intros joints tr Hl; cbn.
  - by rewrite app_nil_r.
  - apply Forall_cons in Hl as [[Hname [jointType Hty]] Hl].
    erewrite bind_Ok by (by eapply register_joint_classified).
    rewrite IH, <- app_assoc by done. reflexivity.
Qed.

Lemma register_all_Ok_inv body l : forall joints tr joints' tr',
  for_each l (register_joint sim body) joints tr = (Ok joints', tr') ->
  Forall (fun i => registrable (getJointInfo sim body i)) l.
Proof.
  induction l as [|i l IH]; intros joints tr joints' tr' Hrun; [constructor|].
  cbn in Hrun. apply bind_Ok_inv in Hrun as (joints1 & tr1 & Hstep & Hrest).
  destruct (decode (info1 (getJointInfo sim body i))) as [text|] eqn:Hname.
  - destruct (classify (getJointInfo sim body i)) as [jointType|] eqn:Hty.
    + constructor; [|eauto]. split; [by rewrite Hname | by rewrite Hty].
    + rewrite register_joint_unclassified in Hstep by (by rewrite ?Hname). discriminate.
  - rewrite register_joint_undecodable in Hstep by done. discriminate.
Qed.

Lemma UR5Sim_init_Ok_registrable tr self tr' :
  UR5Sim_init sim tr = (Ok self, tr') ->
  Forall registrable (reported_joints sim (ur5 self)).
Proof.
  unfold UR5Sim_init. rewrite bind_call. intros Hrun.
  apply bind_Ok_inv in Hrun as (robot & tr1 & Hload & Hrun).
  rewrite bind_call in Hrun.
  apply bind_Ok_inv in Hrun as (joints' & tr2 & Hloop & Hret).
  pose proof (register_all_Ok_inv _ _ _ _ _ _ Hloop) as Hvalid.
  injection Hret as <- <-. cbn [ur5].
  unfold reported_joints. by rewrite Forall_fmap.
Qed.

(** [__init__] returns normally exactly when both descriptions load,
    every reported name decodes and every reported type code is in
    range; this is what it then built and what it did. *)
Lemma UR5Sim_init_Ok_inv tr self tr' :
  UR5Sim_init sim tr = (Ok self, tr') ->
  loads sim tr (ur5 self)
  /\ Forall (fun raw => is_Some (classify raw)) (reported_joints sim (ur5 self))
  /\ self = mk_UR5Sim 7 (ur5 self) (getNumJoints sim (ur5 self))
              (foldl register ∅ (reported_joints sim (ur5 self)))
  /\ tr' = tr ++ [Connect; table_call sim; robot_call; GetNumJoints (ur5 self)]
              ++ (range (getNumJoints sim (ur5 self)) ≫= joint_events sim (ur5 self)).
Proof.
  intros Hrun. pose proof (UR5Sim_init_Ok_registrable _ _ _ Hrun) as Hreg.
  revert Hrun. unfold UR5Sim_init. rewrite bind_call. intros Hrun.
  apply bind_Ok_inv in Hrun as (robot & tr1 & Hload & Hrun).
  apply load_robot_Ok_inv in Hload as (Htable & Hrobot & ->).
  rewrite bind_call in Hrun.
  apply bind_Ok_inv in Hrun as (joints' & tr2 & Hloop & Hret).
  pose proof (register_all_Ok_inv _ _ _ _ _ _ Hloop) as Hvalid.
  rewrite register_all in Hloop by done.
  injection Hloop as <- <-. injection Hret as <- <-. cbn [ur5] in *.
  rewrite <- !app_assoc in *. cbn in *.
  repeat split; try done.
  eapply Forall_impl; [exact Hreg|]. by intros raw [_ Hty].
Qed.

Lemma UR5Sim_init_loads tr robot :
  loads sim tr robot ->
  Forall registrable (reported_joints sim robot) ->
  UR5Sim_init sim tr
    = (Ok (mk_UR5Sim 7 robot (getNumJoints sim robot)
             (foldl register ∅ (reported_joints sim robot))),
       tr ++ [Connect; table_call sim; robot_call; GetNumJoints robot]
          ++ (range (getNumJoints sim robot) ≫= joint_events sim robot)).
Proof.
  intros [[table Htable] Hrobot] Hvalid.
  unfold UR5Sim_init. rewrite bind_call.
  erewrite bind_Ok; last first.
  { eapply load_robot_loads; [exact Htable|]. rewrite <- app_assoc. exact Hrobot. }
  rewrite bind_call. erewrite bind_Ok; last first.
  { apply register_all. unfold reported_joints in Hvalid. by rewrite Forall_fmap in Hvalid. }
  unfold ret, reported_joints. rewrite <- !app_assoc. reflexivity.
Qed.

End Init.

(** ** The registry [__init__] builds *)

Lemma register_well_keyed joints raw :
  well_keyed joints -> well_keyed (register joints raw).
Proof.
  intros Hwk. unfold register. destruct (classify raw) as [jointType|]; [|done].
  intros name joint. rewrite lookup_insert. case_decide as Hname.
  - intros [= <-]. by subst name.
  - apply Hwk.
Qed.

Lemma register_keeps joints raw name :
  is_Some (joints !! name) -> is_Some (register joints raw !! name).
Proof.
  intros Hsome. unfold register. destruct (classify raw); [|done].
  rewrite lookup_insert. case_decide; eauto.
Qed.

Lemma registry_well_keyed raws : forall joints,
  well_keyed joints -> well_keyed (foldl register joints raws).
Proof.
  induction raws as [|raw raws IH]; intros joints Hwk; cbn; [done|].
  by apply IH, register_well_keyed.
Qed.

Lemma registry_keeps raws name : forall joints,
  is_Some (joints !! name) -> is_Some (foldl register joints raws !! name).
Proof.
  induction raws as [|raw raws IH]; intros joints Hsome; cbn; [done|].
  by apply IH, register_keeps.
Qed.

(** A reported joint whose type code is in range is registered. *)
Lemma registry_has raws raw : forall joints,
  raw ∈ raws -> is_Some (classify raw) ->
  is_Some (foldl register joints raws !! info1 raw).
Proof.
  induction raws as [|raw' raws IH]; intros joints Hin Hty; [by apply elem_of_nil in Hin|].
  cbn. apply elem_of_cons in Hin as [<-|Hin]; [|by apply IH].
  apply registry_keeps. unfold register. destruct Hty as [jointType ->].
  rewrite lookup_insert_eq. eauto.
Qed.

(** A name no reported joint bears is not registered. *)
Lemma registry_lacks raws name : forall joints,
  name ∉ info1 <$> raws ->
  foldl register joints raws !! name = joints !! name.
Proof.
  induction raws as [|raw raws IH]; intros joints Hnot; cbn; [done|].
  cbn in Hnot. apply not_elem_of_cons in Hnot as [Hne Hnot].
  rewrite IH by done. unfold register. destruct (classify raw); [|done].
  by rewrite lookup_insert_ne.
Qed.

Lemma empty_well_keyed : well_keyed ∅.
Proof. intros name joint Hlookup. by rewrite lookup_empty in Hlookup. Qed.

Lemma is_revolute_spec raw : is_revolute raw <-> classify raw = Some "REVOLUTE".
Proof.
  unfold is_revolute. destruct (classify raw) as [jointType|]; [|done].
  rewrite Is_true_true, String.eqb_eq. split; congruence.
Qed.

(** The startup velocity commands of the loop of [__init__], in order. *)
Lemma joint_events_velocity_commands sim body l :
  filter is_velocity_command (l ≫= joint_events sim body)
  = (fun raw => disable_motor body (info0 raw))
      <$> filter is_revolute (getJointInfo sim body <$> l).
Proof.
  induction l as [|i l IH]; [done|].
  cbn [mbind list_bind fmap list_fmap]. rewrite filter_app, IH.
  unfold joint_events.
  destruct (is_revolute (getJointInfo sim body i)) eqn:Hrev.
  - rewrite (filter_cons_True is_revolute) by (by rewrite Hrev). reflexivity.
  - rewrite (filter_cons_False is_revolute) by (rewrite Hrev; cbn; tauto). reflexivity.
Qed.

(** All the motor commands of the loop of [__init__], in order. *)
Lemma joint_events_motor_commands sim body l :
  filter is_motor_command (l ≫= joint_events sim body)
  = (fun raw => disable_motor body (info0 raw))
      <$> filter is_revolute (getJointInfo sim body <$> l).
Proof.
  induction l as [|i l IH]; [done|].
  cbn [mbind list_bind fmap list_fmap]. rewrite filter_app, IH.
  unfold joint_events.
  destruct (is_revolute (getJointInfo sim body i)) eqn:Hrev.
  - rewrite (filter_cons_True is_revolute) by (by rewrite Hrev). reflexivity.
  - rewrite (filter_cons_False is_revolute) by (rewrite Hrev; cbn; tauto). reflexivity.
Qed.

Section InitClaims.

Context (sim : Simulator).

(** C6: after [__init__], every joint the simulator reports has a
    descriptor under its name; that descriptor is marked controllable if
    and only if the name is one of the six control joints, and has
    [controllable = false] for any other name. *)
Theorem UR5Sim_init_controllable tr self tr' :
  UR5Sim_init sim tr = (Ok self, tr') ->
  forall raw, raw ∈ reported_joints sim (ur5 self) ->
  exists joint,
    joints self !! info1 raw = Some joint
    /\ Joint.name joint = info1 raw
    /\ (Joint.controllable joint = true <->
        info1 raw ∈ ["shoulder_pan_joint"; "shoulder_lift_joint"; "elbow_joint";
                     "wrist_1_joint"; "wrist_2_joint"; "wrist_3_joint"])
    /\ (info1 raw ∉ ["shoulder_pan_joint"; "shoulder_lift_joint"; "elbow_joint";
                     "wrist_1_joint"; "wrist_2_joint"; "wrist_3_joint"] ->
        Joint.controllable joint = false).
Proof.
  intros Hrun raw Hin. apply UR5Sim_init_Ok_inv in Hrun as (_ & Hvalid & Hself & _).
  rewrite Hself. cbn [joints ur5].
  rewrite Forall_forall in Hvalid.
  destruct (registry_has _ _ ∅ Hin (Hvalid _ Hin)) as [joint Hjoint].
  exists joint. split; [done|].
  destruct (registry_well_keyed _ _ empty_well_keyed _ _ Hjoint) as [-> ->].
  fold control_joints. rewrite bool_decide_eq_true, bool_decide_eq_false. done.
Qed.

(** C2 (amended): [__init__] does not look for the six names.  When both
    descriptions load, every reported joint name decodes as UTF-8 and
    every reported type code indexes [joint_type_list], it completes
    normally, whether or not the six names are among the reported ones;
    a name that no reported joint bears is then not a key of
    [self.joints]. *)
Theorem UR5Sim_init_completes tr robot :
  loads sim tr robot ->
  Forall (fun raw => is_Some (decode (info1 raw))) (reported_joints sim robot) ->
  Forall (fun raw => is_Some (classify raw)) (reported_joints sim robot) ->
  exists self tr',
    UR5Sim_init sim tr = (Ok self, tr') /\ ur5 self = robot
    /\ forall name, name ∉ info1 <$> reported_joints sim robot ->
         joints self !! name = None.
Proof.
  intros Hloads Hnames Hvalid. do 2 eexists. split.
  - apply UR5Sim_init_loads; [done|]. apply Forall_and. done.
  - split; [done|]. intros name Hnot. cbn [joints]. by rewrite registry_lacks.
Qed.

(** C8 (amended): the motor commands of [__init__] are, in order, one
    per reported joint whose type is REVOLUTE, each a velocity-control
    command with zero target velocity and zero force, sent right after
    the description of that joint was read; the name of the joint plays
    no part, and no other joint gets a command of any kind. *)
Theorem UR5Sim_init_disables_revolute tr self tr' :
  UR5Sim_init sim tr = (Ok self, tr') ->
  filter is_motor_command (drop (length tr) tr')
  = (fun raw => SetJointMotorControl2 (ur5 self) (info0 raw) VELOCITY_CONTROL
                  (PyInt 0) (PyInt 0))
      <$> filter (fun raw => classify raw = Some "REVOLUTE")
            (reported_joints sim (ur5 self))
  /\ drop (length tr) tr'
     = [Connect; table_call sim; robot_call; GetNumJoints (ur5 self)]
       ++ (range (getNumJoints sim (ur5 self)) ≫= fun i =>
             GetJointInfo (ur5 self) i ::
             if bool_decide (classify (getJointInfo sim (ur5 self) i) = Some "REVOLUTE")
             then [SetJointMotorControl2 (ur5 self)
                     (info0 (getJointInfo sim (ur5 self) i)) VELOCITY_CONTROL
                     (PyInt 0) (PyInt 0)]
             else []).
Proof.
  intros Hrun. apply UR5Sim_init_Ok_inv in Hrun as (_ & _ & _ & ->).
  rewrite drop_app_length. split.
  - rewrite filter_app, joint_events_motor_commands.
    rewrite (list_filter_iff _ _ _ is_revolute_spec). reflexivity.
  - f_equal. apply list_bind_ext; [|done]. intros i. unfold joint_events, disable_motor.
    f_equal. destruct (is_revolute (getJointInfo sim (ur5 self) i)) eqn:Hrev.
    + rewrite bool_decide_eq_true_2; [done|]. apply is_revolute_spec. by rewrite Hrev.
    + rewrite bool_decide_eq_false_2; [done|]. intros Hty%is_revolute_spec.
      by rewrite Hrev in Hty.
Qed.

End InitClaims.

(** ** [check_collisions] *)

Section CheckCollisions.

Context (sim : Simulator) (self : UR5Sim).

Lemma check_collisions_contact tr c cs :
  getContactPoints sim tr = c :: cs ->
  check_collisions sim self tr
    = (Ok true, tr ++ GetContactPoints :: collision_log sim tr).
Proof.
  intros Hcs. unfold check_collisions. rewrite bind_call, Hcs.
  cbn [length bool_decide decide_rel]. rewrite bool_decide_eq_true_2 by (cbn; lia).
  rewrite !bind_call. unfold ret, collision_log. rewrite <- !app_assoc. reflexivity.
Qed.

Lemma check_collisions_free tr :
  getContactPoints sim tr = [] ->
  check_collisions sim self tr = (Ok false, tr ++ [GetContactPoints]).
Proof.
  intros Hcs. unfold check_collisions. rewrite bind_call, Hcs. reflexivity.
Qed.

(** C7: [check_collisions] asks for the contact points once; it returns
    [True] if and only if the answer has at least one contact point,
    and it prints the line with the time exactly in that case. *)
Theorem check_collisions_reports tr :
  exists b new,
    check_collisions sim self tr = (Ok b, tr ++ new)
    /\ (b = true <-> (0 < length (getContactPoints sim tr))%nat)
    /\ (b = false <-> getContactPoints sim tr = [])
    /\ filter is_contact_query new = [GetContactPoints]
    /\ filter is_print new
       = if b
         then [Print (PStr ("[Collision detected!] "
                            +:+ datetime_now sim (tr ++ [GetContactPoints])))]
         else [].
Proof.
  destruct (getContactPoints sim tr) as [|c cs] eqn:Hcs.
  - exists false, [GetContactPoints].
    split; [by apply check_collisions_free|].
    cbn. repeat split; try done; lia.
  - exists true, (GetContactPoints :: collision_log sim tr).
    split; [by eapply check_collisions_contact|].
    cbn. repeat split; try done; lia.
Qed.

(** Whatever the contacts, a collision check is one [PCheck] phase and
    never steps the simulation. *)
Lemma check_collisions_phase tr :
  exists b new,
    check_collisions sim self tr = (Ok b, tr ++ new)
    /\ phases new = [PCheck] /\ filter is_step new = [].
Proof.
  destruct (getContactPoints sim tr) as [|c cs] eqn:Hcs.
  - exists false, [GetContactPoints]. by rewrite check_collisions_free.
  - exists true, (GetContactPoints :: collision_log sim tr).
    by erewrite check_collisions_contact.
Qed.

End CheckCollisions.

(** ** [calculate_ik] *)

Lemma math_pi_decimal : math_pi = 3.141592653589793%float.
Proof. reflexivity. Qed.

(** C9: [calculate_ik] turns the Euler orientation into a quaternion and
    asks the simulator for the inverse kinematics of the end effector
    with, for six joints, damping [0.01], upper limits [math.pi], lower
    limits [-math.pi], ranges [2*math.pi] and the rest poses
    [0, -pi/2, -pi/2, -pi/2, -pi/2, 0]; it returns what the simulator
    answers, and has no other outcome. *)
Theorem calculate_ik_request (sim : Simulator) (self : UR5Sim)
    (position orientation : list pynum) (tr : trace) :
  let quaternion := getQuaternionFromEuler sim orientation in
  calculate_ik sim self position orientation tr
  = (Ok (calculateInverseKinematics sim (tr ++ [GetQuaternionFromEuler orientation])
           position quaternion),
     tr ++ [GetQuaternionFromEuler orientation;
            CalculateInverseKinematics (ur5 self) (end_effector_index self)
              position quaternion
              [PyFloat 0.01; PyFloat 0.01; PyFloat 0.01;
               PyFloat 0.01; PyFloat 0.01; PyFloat 0.01]
              [PyFloat 3.141592653589793; PyFloat 3.141592653589793;
               PyFloat 3.141592653589793; PyFloat 3.141592653589793;
               PyFloat 3.141592653589793; PyFloat 3.141592653589793]
              [PyFloat (-3.141592653589793); PyFloat (-3.141592653589793);
               PyFloat (-3.141592653589793); PyFloat (-3.141592653589793);
               PyFloat (-3.141592653589793); PyFloat (-3.141592653589793)]
              [PyFloat 6.283185307179586; PyFloat 6.283185307179586;
               PyFloat 6.283185307179586; PyFloat 6.283185307179586;
               PyFloat 6.283185307179586; PyFloat 6.283185307179586]
              [PyInt 0; PyFloat (-1.5707963267948966);
               PyFloat (-1.5707963267948966); PyFloat (-1.5707963267948966);
               PyFloat (-1.5707963267948966); PyInt 0]]).
Proof.
  intros quaternion. unfold calculate_ik. rewrite !bind_call.
  unfold ret. rewrite <- app_assoc. reflexivity.
Qed.

(** ** The control loop *)

Lemma phases_app tr1 tr2 : phases (tr1 ++ tr2) = phases tr1 ++ phases tr2.
Proof. apply omap_app. Qed.

(** Ticks read from the actuation on, with the clock and the solver in
    front, are ticks read from the clock on, with the clock and the
    solver behind. *)
Lemma ticks_rotate n :
  [PTime; PSolve] ++ concat (replicate n loop_body_phases)
  = concat (replicate n tick) ++ [PTime; PSolve].
Proof.
  induction n as [|n IH]; [done|].
  cbn [replicate concat]. rewrite <- app_assoc, <- IH. reflexivity.
Qed.

Section ControlLoop.

Context (sim : Simulator) (self : UR5Sim).

(** The solver only ever names registered joints. *)
Hypothesis solver_resolves :
  forall tr g time, resolves self (solver_solve sim tr g time).

Lemma control_loop_runs ticks : forall state tr,
  resolves self state ->
  exists new,
    control_loop sim self ticks state tr = (Ok tt, tr ++ new)
    /\ phases new = concat (replicate ticks loop_body_phases)
    /\ length (filter is_step new) = ticks.
Proof.
  induction ticks as [|ticks IH]; intros state tr Hres.
  - exists []. cbn. by rewrite app_nil_r.
  - cbn [control_loop].
    destruct (set_joint_angles_resolved self state tr Hres)
      as (ps & ixs & fs & Happly & _).
    erewrite bind_Ok by exact Happly.
    match type of Happly with _ = (_, _ ++ [?e]) => set (command := e) in * end.
    destruct (check_collisions_phase sim self (tr ++ [command]))
      as (b & checked & Hcheck & Hphase & Hnostep).
    erewrite bind_Ok by exact Hcheck.
    rewrite !bind_call.
    match goal with |- context [control_loop _ _ _ ?s ?t] =>
      destruct (IH s t (solver_resolves _ _ _)) as (rest & Hrest & Hphases & Hsteps)
    end.
    exists ([command] ++ checked
            ++ [StepSimulation; Sleep (1 / 30);
                TimeTime;
                SolverSolve loop_goals
                  (time_time sim (((tr ++ [command]) ++ checked)
                                  ++ [StepSimulation] ++ [Sleep (1 / 30)]))]
            ++ rest).
    split; [|split].
    + rewrite Hrest. f_equal. rewrite <- !app_assoc. reflexivity.
    + rewrite !phases_app, Hphase, Hphases. reflexivity.
    + rewrite !filter_app, Hnostep, !length_app, Hsteps. reflexivity.
Qed.

(** With such a solver the run never raises: every one of the [ticks]
    iterations completes. *)
Lemma run_demo_runs ticks tr :
  exists new,
    run_demo sim self ticks tr = (Ok tt, tr ++ new)
    /\ phases new = concat (replicate ticks tick) ++ [PTime; PSolve]
    /\ length (filter is_step new) = ticks.
Proof.
  unfold run_demo. rewrite !bind_call.
  match goal with |- context [control_loop _ _ _ ?s ?t] =>
    destruct (control_loop_runs ticks s t (solver_resolves _ _ _))
      as (rest & Hrest & Hphases & Hsteps)
  end.
  eexists. split; [|split].
  - rewrite Hrest, <- !app_assoc. reflexivity.
  - rewrite !phases_app, Hphases. cbn [app]. apply ticks_rotate.
  - rewrite !filter_app, !length_app, Hsteps. reflexivity.
Qed.

End ControlLoop.

(** *** The configuration the solver answered last *)

Lemma solved_from_app sim a : forall before b last,
  solved_from sim before (a ++ b) last
  = solved_from sim (before ++ a) b (solved_from sim before a last).
Proof.
  induction a as [|e a IH]; intros before b last; cbn.
  - by rewrite app_nil_r.
  - rewrite IH, <- app_assoc. reflexivity.
Qed.

Lemma solved_from_quiet sim es : forall before last,
  Forall (fun e => goals_of e = None) es -> solved_from sim before es last = last.
Proof.
  induction es as [|e es IH]; intros before last Hquiet; cbn; [done|].
  apply Forall_cons in Hquiet as [He Hquiet]. rewrite IH by done.
  by destruct e.
Qed.

Lemma last_solved_quiet sim tr es :
  Forall (fun e => goals_of e = None) es ->
  last_solved sim (tr ++ es) = last_solved sim tr.
Proof.
  intros Hquiet. unfold last_solved. rewrite solved_from_app. by apply solved_from_quiet.
Qed.

Lemma last_solved_solve sim tr g time :
  last_solved sim (tr ++ [SolverSolve g time]) = Some (solver_solve sim tr g time).
Proof. unfold last_solved. rewrite solved_from_app. reflexivity. Qed.

(** *** The discipline, block by block *)

(** What holds of an event holds of it when more events follow. *)
Lemma obeys_more sim self before e after more :
  obeys sim self before e after -> obeys sim self before e (after ++ more).
Proof.
  intros (Happlies & Hcheck & Hsolve). repeat split; try done.
  intros Hquery. destruct (Hcheck Hquery) as (b & checked & rest & Hrun & Hsplit).
  exists b, checked, (rest ++ more). split; [done|].
  by rewrite app_assoc, <- Hsplit.
Qed.

Lemma each_event_app sim self a : forall before b,
  each_event (obeys sim self) before a ->
  each_event (obeys sim self) (before ++ a) b ->
  each_event (obeys sim self) before (a ++ b).
Proof.
  induction a as [|e a IH]; intros before b Ha Hb; cbn in *.
  - by rewrite app_nil_r in Hb.
  - destruct Ha as [He Ha]. split; [by apply obeys_more|].
    apply IH; [done|]. by rewrite <- app_assoc.
Qed.

(** Events that command no motor, query no contact and ask the solver
    nothing have nothing to obey. *)
Lemma each_event_plain sim self es : forall before,
  Forall (fun e => is_motor_command e = false /\ is_contact_query e = false
                   /\ goals_of e = None) es ->
  each_event (obeys sim self) before es.
Proof.
  induction es as [|e es IH]; intros before Hplain; cbn; [done|].
  apply Forall_cons in Hplain as [(Hcommand & Hquery & Hgoals) Hplain].
  split; [|by apply IH]. repeat split.
  - intros Hyes. congruence.
  - intros Hyes. congruence.
  - intros g time ->. discriminate.
Qed.

Section ControlLoopCycle.

Context (sim : Simulator) (self : UR5Sim).

(** A collision check is one [PCheck] phase; it steps nothing, commands
    no motor and asks the solver nothing. *)
Lemma check_collisions_quiet tr :
  exists b checked,
    check_collisions sim self tr = (Ok b, tr ++ checked)
    /\ phases checked = [PCheck] /\ filter is_step checked = []
    /\ Forall (fun e => goals_of e = None) checked
    /\ each_event (obeys sim self) tr checked.
Proof.
  destruct (getContactPoints sim tr) as [|c cs] eqn:Hcs.
  - exists false, [GetContactPoints].
    assert (Hrun := check_collisions_free sim self tr Hcs). rewrite Hrun.
    repeat split; repeat constructor; try discriminate.
    intros _. exists false, [GetContactPoints], []. done.
  - exists true, (GetContactPoints :: collision_log sim tr).
    assert (Hrun := check_collisions_contact sim self tr c cs Hcs). rewrite Hrun.
    split; [done|]. split; [done|]. split; [done|]. split; [by repeat constructor|].
    cbn [each_event]. split.
    + repeat split; try discriminate.
      intros _. exists true, (GetContactPoints :: collision_log sim tr), []. 
      by rewrite app_nil_r.
    + apply each_event_plain. by repeat constructor.
Qed.

(** The loop, entered with the configuration the solver answered last:
    it runs whole iterations, each applying that configuration, until
    [set_joint_angles] raises on it. *)
Lemma control_loop_any ticks : forall state tr,
  last_solved sim tr = Some state ->
  exists (k : nat) new out,
    control_loop sim self ticks state tr = (out, tr ++ new)
    /\ phases new = concat (replicate k loop_body_phases)
    /\ length (filter is_step new) = k
    /\ each_event (obeys sim self) tr new
    /\ (out = Ok tt /\ k = ticks
        \/ (k < ticks)%nat
           /\ exists name state',
                out = Raise (KeyError name)
                /\ last_solved sim (tr ++ new) = Some state'
                /\ name ∈ state'.*1 /\ joints self !! name = None
                /\ set_joint_angles self state' (tr ++ new)
                   = (Raise (KeyError name), tr ++ new)).
Proof.
  induction ticks as [|ticks IH]; intros state tr Hlast.
  - exists 0%nat, [], (Ok tt). cbn. rewrite app_nil_r. repeat split; auto.
  - cbn [control_loop]. destruct (resolves_dec self state) as [Hres|Hres].
    + destruct (set_joint_angles_resolved self state tr Hres)
        as (ps & ixs & fs & Happly & _).
      erewrite bind_Ok by exact Happly.
      match type of Happly with _ = (_, _ ++ [?e]) => set (command := e) in * end.
      destruct (check_collisions_quiet (tr ++ [command]))
        as (b & checked & Hcheck & Hphase & Hnostep & Hnosolve & Hchecked).
      erewrite bind_Ok by exact Hcheck.
      rewrite !bind_call.
      set (tr1 := ((tr ++ [command]) ++ checked) ++ [StepSimulation; Sleep (1 / 30)]).
      assert (Htr1 : (((tr ++ [command]) ++ checked) ++ [StepSimulation])
                       ++ [Sleep (1 / 30)] = tr1).
      { unfold tr1. by rewrite <- !app_assoc. }
      rewrite Htr1.
      set (time := time_time sim tr1).
      set (state' := solver_solve sim (tr1 ++ [TimeTime]) loop_goals time).
      destruct (IH state' ((tr1 ++ [TimeTime]) ++ [SolverSolve loop_goals time]))
        as (k & rest & out & Hrest & Hphases & Hsteps & Hobeys & Hout).
      { apply last_solved_solve. }
      set (body := [command] ++ checked ++ [StepSimulation; Sleep (1 / 30)]
                   ++ [TimeTime] ++ [SolverSolve loop_goals time]).
      assert (Hbody : (tr1 ++ [TimeTime]) ++ [SolverSolve loop_goals time] = tr ++ body).
      { unfold tr1, body. by rewrite <- !app_assoc. }
      rewrite Hbody in *.
      exists (S k), (body ++ rest), out. rewrite app_assoc.
      split; [exact Hrest|]. split; [|split; [|split]].
      4: { destruct Hout as [[-> ->]|[Hlt Hraise]]; [left | right]; split; auto; lia. }
      * unfold body. rewrite !phases_app, Hphase, Hphases. reflexivity.
      * unfold body. rewrite !filter_app, Hnostep, !length_app, Hsteps. reflexivity.
      * apply each_event_app; [|exact Hobeys]. unfold body.
        apply each_event_app.
        { cbn. split; [|done]. repeat split; try discriminate.
          intros _. exists state. split; [done|]. exact Happly. }
        apply each_event_app; [exact Hchecked|].
        apply each_event_app; [apply each_event_plain; by repeat constructor|].
        apply each_event_app; [apply each_event_plain; by repeat constructor|].
        cbn. split; [|done]. repeat split; try discriminate.
        intros g time' [= <- <-]. exists tr1. split; [|done].
        unfold tr1. by rewrite <- !app_assoc.
    + destruct (set_joint_angles_unresolved self state tr Hres)
        as (name & Hin & Hnone & Happly).
      erewrite bind_Raise by exact Happly.
      exists 0%nat, [], (Raise (KeyError name)). rewrite app_nil_r.
      repeat split; try done.
      right. split; [lia|]. exists name, state. done.
Qed.

(** The whole run, whatever the solver answers. *)
Lemma run_demo_any ticks tr :
  exists (k : nat) new out,
    run_demo sim self ticks tr = (out, tr ++ new)
    /\ phases new = concat (replicate k tick) ++ [PTime; PSolve]
    /\ length (filter is_step new) = k
    /\ each_event (obeys sim self) tr new
    /\ (out = Ok tt /\ k = ticks
        \/ (k < ticks)%nat
           /\ exists name state,
                out = Raise (KeyError name)
                /\ last_solved sim (tr ++ new) = Some state
                /\ name ∈ state.*1 /\ joints self !! name = None
                /\ set_joint_angles self state (tr ++ new)
                   = (Raise (KeyError name), tr ++ new)).
Proof.
  unfold run_demo. rewrite !bind_call.
  set (time := time_time sim tr).
  set (state := solver_solve sim (tr ++ [TimeTime]) first_goals time).
  set (first := [TimeTime] ++ [SolverSolve first_goals time] ++ [Print (PJoints state)]).
  assert (Hfirst : ((tr ++ [TimeTime]) ++ [SolverSolve first_goals time])
                     ++ [Print (PJoints state)] = tr ++ first).
  { unfold first. by rewrite <- !app_assoc. }
  rewrite Hfirst.
  destruct (control_loop_any ticks state (tr ++ first))
    as (k & rest & out & Hrest & Hphases & Hsteps & Hobeys & Hout).
  { rewrite <- Hfirst, last_solved_quiet by (by repeat constructor).
    apply last_solved_solve. }
  exists k, (first ++ rest), out. rewrite app_assoc.
  split; [exact Hrest|]. split; [|split; [|split; [|exact Hout]]].
  - rewrite phases_app, Hphases. cbn [app]. apply ticks_rotate.
  - rewrite filter_app, length_app, Hsteps. reflexivity.
  - apply each_event_app; [|exact Hobeys]. unfold first.
    apply each_event_app; [apply each_event_plain; by repeat constructor|].
    apply each_event_app; [|apply each_event_plain; by repeat constructor].
    cbn. split; [|done]. repeat split; try discriminate.
    intros g time' [= <- <-]. by exists tr.
Qed.

(** C5: read from the first clock reading on, the run is a whole number
    of ticks, each of them, in this order: read the clock, solve, apply
    the configuration, check for collisions, step the simulation once,
    sleep for a thirtieth of a second; then the clock and the solver once
    more.  Every solver call is given the clock reading taken just
    before it, every motor command is the one [set_joint_angles] issues
    for the configuration the solver answered last, and every contact
    query is a whole [check_collisions].  Every one of the iterations
    runs to its end, unless the configuration the solver answered last
    names a joint that is not registered: then, and only then,
    [set_joint_angles] raises [KeyError] on it at the head of the next
    iteration, before anything of that iteration is done.  With a solver
    that names registered joints only, no iteration fails. *)
Theorem control_loop_cycle ticks tr :
  exists (k : nat) new out,
    run_demo sim self ticks tr = (out, tr ++ new)
    /\ phases new = concat (replicate k tick) ++ [PTime; PSolve]
    /\ length (filter is_step new) = k
    /\ each_event (obeys sim self) tr new
    /\ (out = Ok tt /\ k = ticks
        \/ (k < ticks)%nat
           /\ exists name state,
                out = Raise (KeyError name)
                /\ last_solved sim (tr ++ new) = Some state
                /\ name ∈ state.*1 /\ joints self !! name = None
                /\ set_joint_angles self state (tr ++ new)
                   = (Raise (KeyError name), tr ++ new))
    /\ ((forall tr' g time, resolves self (solver_solve sim tr' g time)) ->
        out = Ok tt /\ k = ticks).
Proof.
  destruct (run_demo_any ticks tr)
    as (k & new & out & Hrun & Hphases & Hsteps & Hobeys & Hout).
  exists k, new, out. do 5 (split; [done|]).
  intros Hsolver.
  destruct (run_demo_runs sim self Hsolver ticks tr) as (new' & Hrun' & _).
  destruct Hout as [Hok|[_ (name & state & -> & _)]]; [done|].
  rewrite Hrun in Hrun'. discriminate.
Qed.

End ControlLoopCycle.


(** ** The program on the bench *)

Example joint_type_list_first : py_getitem joint_type_list 0 = Some "REVOLUTE".
Proof. reflexivity. Qed.

Example joint_type_list_from_the_end : py_getitem joint_type_list (-1) = Some "FIXED".
Proof. reflexivity. Qed.

Example joint_type_list_out_of_range : py_getitem joint_type_list 5 = None.
Proof. reflexivity. Qed.

Example thirtieth : (1 / 30)%float = 0.03333333333333333%float.
Proof. reflexivity. Qed.

(** A name that is not registered: [KeyError], and nothing is sent. *)
Example set_joint_angles_unknown_joint :
  set_joint_angles ur5e_self [("elbow_joint", PyFloat 0); ("gripper", PyFloat 1)] []
  = (Raise (KeyError "gripper"), []).
Proof. vm_compute. reflexivity. Qed.

(** A joint of type code 5 (point-to-point) has no name in
    [joint_type_list]: [__init__] dies with [IndexError]. *)
Example UR5Sim_init_unknown_type :
  (UR5Sim_init (bench [mk_rawInfo 0 "ball_joint" 5 0 0 0 0] [] rest_state) []).1
  = Raise IndexError.
Proof. vm_compute. reflexivity. Qed.

(** The whole demo, one tick, with a contact on the bench. *)
Example demo_simulation_one_tick :
  phases (drop 18 (demo_simulation (bench five_axis_joints [mk_contact 0 1 (-1) 3] [])
                     1 []).2)
  = tick ++ [PTime; PSolve].
Proof. vm_compute. reflexivity. Qed.

Lemma ur5e_self_built :
  UR5Sim_init ur5e_bench [] = (Ok ur5e_self, (UR5Sim_init ur5e_bench []).2).
Proof. vm_compute. reflexivity. Qed.

Lemma set_joint_angles_batched_witness :
  exists indexes poses velocities gains forces,
    set_joint_angles ur5e_self rest_state []
      = (Ok tt, [] ++ [SetJointMotorControlArray (ur5 ur5e_self) indexes POSITION_CONTROL
                         poses velocities gains forces])
    /\ length indexes = length rest_state
    /\ length poses = length rest_state
    /\ length velocities = length rest_state
    /\ length gains = length rest_state
    /\ length forces = length rest_state
    /\ Forall (fun v => v = PyInt 0) velocities
    /\ Forall (fun g => g = PyFloat 0.04) gains
    /\ forall (i : nat) name pose, rest_state !! i = Some (name, pose) ->
         exists joint, joints ur5e_self !! name = Some joint
           /\ indexes !! i = Some (Joint.id joint)
           /\ poses !! i = Some pose
           /\ forces !! i = Some (PyFloat (Joint.maxForce joint)).
Proof.
  apply (set_joint_angles_batched ur5e_self rest_state []).
  unfold resolves. apply Forall_forall. apply (bool_decide_unpack _). vm_compute. exact I.
Defined.

Lemma set_joint_angles_controllable_witness :
  exists new,
    set_joint_angles ur5e_self rest_state [] = (Ok tt, [] ++ new)
    /\ forall j, j ∈ actuated_joints new ->
         exists name joint, name ∈ rest_state.*1
           /\ joints ur5e_self !! name = Some joint /\ Joint.id joint = j
           /\ Joint.controllable joint = true.
Proof.
  apply (set_joint_angles_controllable ur5e_self rest_state []).
  assert (Hall : Forall (fun name =>
                   Joint.controllable <$> joints ur5e_self !! name = Some true)
                   rest_state.*1)
    by (apply (bool_decide_unpack _); vm_compute; exact I).
  intros name Hin. rewrite Forall_forall in Hall. specialize (Hall name Hin).
  destruct (joints ur5e_self !! name) as [joint|]; [|discriminate].
  exists joint. split; [reflexivity|]. by injection Hall.
Defined.

(** C1, as worded, fails: [ee_fixed_joint] is registered and not
    controllable, and a configuration that names it has joint 7
    commanded. *)
Lemma set_joint_angles_actuates_fixed_joint :
  ~ actuates_only_controllable ur5e_self fixed_joint_state.
Proof.
  intros Hclaim.
  assert (Hres : resolves ur5e_self fixed_joint_state).
  { unfold resolves. apply Forall_forall. apply (bool_decide_unpack _).
    vm_compute. exact I. }
  destruct (Hclaim Hres [] (Ok tt)
              [SetJointMotorControlArray 1 [7] POSITION_CONTROL [PyFloat 0]
                 [PyInt 0] [PyFloat 0.04] [PyFloat 0]] eq_refl 7)
    as (name & joint & Hjoint & Hid & Hctl).
  { cbn. apply elem_of_cons. by left. }
  assert (Hall : map_Forall (fun _ joint =>
                   Joint.id joint = 7 -> Joint.controllable joint = false)
                   (joints ur5e_self))
    by (apply (bool_decide_unpack _); vm_compute; exact I).
  specialize (Hall name joint Hjoint Hid). congruence.
Qed.

Lemma UR5Sim_init_controllable_witness :
  exists joint,
    joints ur5e_self !! "elbow_joint" = Some joint
    /\ Joint.name joint = "elbow_joint"
    /\ (Joint.controllable joint = true <->
        "elbow_joint" ∈ ["shoulder_pan_joint"; "shoulder_lift_joint"; "elbow_joint";
                         "wrist_1_joint"; "wrist_2_joint"; "wrist_3_joint"])
    /\ ("elbow_joint" ∉ ["shoulder_pan_joint"; "shoulder_lift_joint"; "elbow_joint";
                         "wrist_1_joint"; "wrist_2_joint"; "wrist_3_joint"] ->
        Joint.controllable joint = false).
Proof.
  apply (UR5Sim_init_controllable ur5e_bench [] ur5e_self
           (UR5Sim_init ur5e_bench []).2 ltac:(vm_compute; reflexivity)
           (mk_rawInfo 3 "elbow_joint" 0 (-3.141592653589793) 3.141592653589793
              150 3.15)).
  apply list_elem_of_lookup. exists 3%nat. vm_compute. reflexivity.
Defined.

Lemma UR5Sim_init_completes_witness :
  exists self tr',
    UR5Sim_init five_axis_bench [] = (Ok self, tr') /\ ur5 self = 1
    /\ forall name, name ∉ info1 <$> reported_joints five_axis_bench 1 ->
         joints self !! name = None.
Proof.
  apply (UR5Sim_init_completes five_axis_bench [] 1).
  - split; [eexists|]; vm_compute; reflexivity.
  - apply Forall_fmap, (bool_decide_unpack _). vm_compute. exact I.
  - apply Forall_fmap, (bool_decide_unpack _). vm_compute. exact I.
Defined.

(** C2, as worded, fails: on the five-axis bench [wrist_3_joint] is
    not reported, and [__init__] completes normally. *)
Lemma UR5Sim_init_without_wrist_3 : ~ requires_control_joints five_axis_bench.
Proof.
  intros Hclaim.
  assert (Hrun : UR5Sim_init five_axis_bench []
                 = (Ok (built five_axis_joints), (UR5Sim_init five_axis_bench []).2))
    by (vm_compute; reflexivity).
  assert (Hsix : "wrist_3_joint" ∈ control_joints)
    by (apply (bool_decide_unpack _); vm_compute; exact I).
  pose proof (Hclaim _ _ _ Hrun _ Hsix) as Hin.
  assert (Hnot : "wrist_3_joint" ∉ info1 <$> reported_joints five_axis_bench 1)
    by (apply (bool_decide_unpack _); vm_compute; exact I).
  exact (Hnot Hin).
Qed.

Lemma gripper_built :
  UR5Sim_init gripper_bench []
  = (Ok (built gripper_joints), (UR5Sim_init gripper_bench []).2).
Proof. vm_compute. reflexivity. Qed.

Lemma UR5Sim_init_disables_revolute_witness :
  filter is_motor_command (drop (length (@nil event)) (UR5Sim_init gripper_bench []).2)
  = (fun raw => SetJointMotorControl2 (ur5 (built gripper_joints)) (info0 raw)
                  VELOCITY_CONTROL (PyInt 0) (PyInt 0))
      <$> filter (fun raw => classify raw = Some "REVOLUTE")
            (reported_joints gripper_bench (ur5 (built gripper_joints)))
  /\ drop (length (@nil event)) (UR5Sim_init gripper_bench []).2
     = [Connect; table_call gripper_bench; robot_call;
        GetNumJoints (ur5 (built gripper_joints))]
       ++ (range (getNumJoints gripper_bench (ur5 (built gripper_joints))) ≫= fun i =>
             GetJointInfo (ur5 (built gripper_joints)) i ::
             if bool_decide (classify (getJointInfo gripper_bench
                                         (ur5 (built gripper_joints)) i)
                             = Some "REVOLUTE")
             then [SetJointMotorControl2 (ur5 (built gripper_joints))
                     (info0 (getJointInfo gripper_bench (ur5 (built gripper_joints)) i))
                     VELOCITY_CONTROL (PyInt 0) (PyInt 0)]
             else []).
Proof.
  apply (UR5Sim_init_disables_revolute gripper_bench [] (built gripper_joints)
           (UR5Sim_init gripper_bench []).2).
  vm_compute. reflexivity.
Defined.

(** C8, as worded, fails: on the gripper bench [finger_joint] is
    REVOLUTE and not one of the six, and its velocity motor is switched
    off at startup like the others. *)
Lemma UR5Sim_init_disables_finger_joint : ~ disables_only_control_joints gripper_bench.
Proof.
  intros Hclaim.
  pose proof (Hclaim _ _ _ gripper_built
                (mk_rawInfo 10 "finger_joint" 0 0 0.8 20 2)) as Hfinger.
  destruct Hfinger as [Hfinger _].
  { apply list_elem_of_lookup. exists 10%nat. vm_compute. reflexivity. }
  destruct Hfinger as [Hsix _].
  { apply list_elem_of_lookup. exists 21%nat. vm_compute. reflexivity. }
  revert Hsix. apply (bool_decide_unpack _). vm_compute. exact I.
Qed.

(** Two ticks on the bench. *)
Example run_demo_two_ticks :
  exists new,
    run_demo ur5e_bench ur5e_self 2 [] = (Ok tt, [] ++ new)
    /\ phases new = concat (replicate 2 tick) ++ [PTime; PSolve]
    /\ length (filter is_step new) = 2%nat.
Proof.
  apply (run_demo_runs ur5e_bench ur5e_self).
  intros tr g time. cbn [ur5e_bench bench solver_solve].
  unfold resolves. apply Forall_forall, (bool_decide_unpack _). vm_compute. exact I.
Qed.

(** * Beyond the claims *)

(** ** Python indexing *)

Lemma py_getitem_is_Some {A : Type} (l : list A) (k : Z) :
  is_Some (py_getitem l k) <-> - Z.of_nat (length l) <= k < Z.of_nat (length l).
Proof.
  unfold py_getitem. case_bool_decide as Hk.
  - rewrite lookup_lt_is_Some. lia.
  - case_bool_decide as Hk'.
    + rewrite lookup_lt_is_Some. lia.
    + split; [intros [x Hx]; discriminate | lia].
Qed.

Lemma classify_is_Some raw : is_Some (classify raw) <-> -5 <= info2 raw < 5.
Proof. unfold classify. rewrite py_getitem_is_Some. reflexivity. Qed.

(** ** When [__init__] completes *)

Section InitOutcome.

Context (sim : Simulator).

(** X1: [__init__] returns normally exactly when both descriptions
    load and every reported joint has a name that decodes as UTF-8 and a
    type code between -5 and 4. *)
Theorem UR5Sim_init_Ok_iff tr :
  (exists self tr', UR5Sim_init sim tr = (Ok self, tr'))
  <-> exists robot, loads sim tr robot
        /\ Forall (fun raw => is_Some (decode (info1 raw)) /\ -5 <= info2 raw < 5)
             (reported_joints sim robot).
Proof.
  split.
  - intros (self & tr' & Hrun).
    pose proof (UR5Sim_init_Ok_registrable _ _ _ _ Hrun) as Hvalid.
    apply UR5Sim_init_Ok_inv in Hrun as (Hloads & _).
    exists (ur5 self). split; [done|].
    eapply Forall_impl; [exact Hvalid|]. intros raw [Hname Hty].
    split; [done | by apply classify_is_Some].
  - intros (robot & Hloads & Hvalid). do 2 eexists.
    apply UR5Sim_init_loads; [exact Hloads|].
    eapply Forall_impl; [exact Hvalid|]. intros raw [Hname Hty].
    split; [done | by apply classify_is_Some].
Qed.

Lemma range_split (n i : Z) :
  0 <= i < n -> range n = range i ++ i :: seqZ (i + 1) (n - i - 1).
Proof.
  intros Hi. unfold range.
  replace n with (i + (n - i)) at 1 by lia.
  rewrite seqZ_app by lia. f_equal.
  rewrite seqZ_cons by lia. f_equal; lia.
Qed.

(** The loop of [__init__] up to a joint at which a round raises. *)
Lemma register_all_fails body before i after e : forall joints tr,
  Forall (fun j => registrable (getJointInfo sim body j)) before ->
  (forall joints tr,
     register_joint sim body joints i tr = (Raise e, tr ++ [GetJointInfo body i])) ->
  for_each (before ++ i :: after) (register_joint sim body) joints tr
    = (Raise e, tr ++ (before ≫= joint_events sim body) ++ [GetJointInfo body i]).
Proof.
  induction before as [|j before IH]; intros joints tr Hbefore Hbad; cbn.
  - erewrite bind_Raise by apply Hbad. reflexivity.
  - apply Forall_cons in Hbefore as [[Hname [jointType Hty]] Hbefore].
    erewrite bind_Ok by (by eapply register_joint_classified).
    rewrite IH, <- !app_assoc by done. reflexivity.
Qed.

(** [__init__] up to the first joint at which a round raises. *)
Lemma UR5Sim_init_fails tr robot i e :
  loads sim tr robot ->
  0 <= i < getNumJoints sim robot ->
  (forall j, 0 <= j < i -> registrable (getJointInfo sim robot j)) ->
  (forall joints tr,
     register_joint sim robot joints i tr = (Raise e, tr ++ [GetJointInfo robot i])) ->
  UR5Sim_init sim tr
  = (Raise e,
     tr ++ [Connect; table_call sim; robot_call; GetNumJoints robot]
        ++ (range i ≫= joint_events sim robot) ++ [GetJointInfo robot i]).
Proof.
  intros [[table Htable] Hrobot] Hi Hbefore Hbad.
  unfold UR5Sim_init. rewrite bind_call.
  erewrite bind_Ok; last first.
  { eapply load_robot_loads; [exact Htable|]. rewrite <- app_assoc. exact Hrobot. }
  rewrite bind_call, (range_split _ i) by done.
  erewrite bind_Raise; last first.
  { apply register_all_fails; [|exact Hbad].
    apply Forall_forall. intros j Hj. apply Hbefore.
    unfold range in Hj. apply elem_of_seqZ in Hj. lia. }
  rewrite <- !app_assoc. reflexivity.
Qed.

(** X2: when joint [i] is the first whose type code is out of range,
    and the names up to it decode, [__init__] raises [IndexError] right
    after asking for that joint; the joints before it have been
    processed, their velocity motors switched off where revolute, and no
    joint after it is looked at. *)
Theorem UR5Sim_init_IndexError tr robot i :
  loads sim tr robot ->
  0 <= i < getNumJoints sim robot ->
  (forall j, 0 <= j <= i -> is_Some (decode (info1 (getJointInfo sim robot j)))) ->
  (forall j, 0 <= j < i -> -5 <= info2 (getJointInfo sim robot j) < 5) ->
  ~ (-5 <= info2 (getJointInfo sim robot i) < 5) ->
  UR5Sim_init sim tr
  = (Raise IndexError,
     tr ++ [Connect; table_call sim; robot_call; GetNumJoints robot]
        ++ (range i ≫= joint_events sim robot) ++ [GetJointInfo robot i]).
Proof.
  intros Hloads Hi Hnames Hbefore Hbad. apply UR5Sim_init_fails; try done.
  - intros j Hj. split; [apply Hnames; lia | by apply classify_is_Some, Hbefore].
  - intros joints tr1. apply register_joint_unclassified; [apply Hnames; lia|].
    destruct (classify (getJointInfo sim robot i)) as [jointType|] eqn:Hty; [|done].
    destruct Hbad. apply classify_is_Some. rewrite Hty. eauto.
Qed.

(** X19: when joint [i] is the first whose name does not decode as
    UTF-8, and the joints before it have type codes in range,
    [__init__] raises [UnicodeDecodeError] right after asking for that
    joint, whatever its type code; the joints before it have been
    processed and no joint after it is looked at. *)
Theorem UR5Sim_init_UnicodeDecodeError tr robot i :
  loads sim tr robot ->
  0 <= i < getNumJoints sim robot ->
  (forall j, 0 <= j < i -> is_Some (decode (info1 (getJointInfo sim robot j)))) ->
  (forall j, 0 <= j < i -> -5 <= info2 (getJointInfo sim robot j) < 5) ->
  decode (info1 (getJointInfo sim robot i)) = None ->
  UR5Sim_init sim tr
  = (Raise UnicodeDecodeError,
     tr ++ [Connect; table_call sim; robot_call; GetNumJoints robot]
        ++ (range i ≫= joint_events sim robot) ++ [GetJointInfo robot i]).
Proof.
  intros Hloads Hi Hnames Hbefore Hbad. apply UR5Sim_init_fails; try done.
  - intros j Hj. split; [by apply Hnames | by apply classify_is_Some, Hbefore].
  - intros joints tr1. by apply register_joint_undecodable.
Qed.

Lemma load_robot_no_table tr :
  loadURDF sim tr (TABLE_URDF_PATH sim) = None ->
  load_robot sim tr
    = (Raise (PybulletError (TABLE_URDF_PATH sim)), tr ++ [table_call sim]).
Proof. intros Htable. unfold load_robot. rewrite bind_call, Htable. reflexivity. Qed.

Lemma load_robot_no_robot tr table :
  loadURDF sim tr (TABLE_URDF_PATH sim) = Some table ->
  loadURDF sim (tr ++ [table_call sim]) ROBOT_URDF_PATH = None ->
  load_robot sim tr
    = (Raise (PybulletError ROBOT_URDF_PATH), tr ++ [table_call sim; robot_call]).
Proof.
  intros Htable Hrobot. unfold load_robot. rewrite bind_call, Htable, bind_call.
  fold (table_call sim). rewrite Hrobot, <- app_assoc. reflexivity.
Qed.

(** X3: when a description does not load, [__init__] raises the
    pybullet error of the first description that fails, having asked the
    simulator for nothing but the connection and the loads: the robot is
    not requested after a table that failed, and no joint is queried. *)
Theorem UR5Sim_init_load_error tr :
  ~ (exists robot, loads sim tr robot) ->
  exists path asked,
    UR5Sim_init sim tr = (Raise (PybulletError path), tr ++ Connect :: asked)
    /\ (loadURDF sim (tr ++ [Connect]) (TABLE_URDF_PATH sim) = None
        /\ path = TABLE_URDF_PATH sim /\ asked = [table_call sim]
        \/ is_Some (loadURDF sim (tr ++ [Connect]) (TABLE_URDF_PATH sim))
           /\ path = ROBOT_URDF_PATH /\ asked = [table_call sim; robot_call]).
Proof.
  intros Hnot. unfold UR5Sim_init. rewrite bind_call.
  destruct (loadURDF sim (tr ++ [Connect]) (TABLE_URDF_PATH sim)) as [table|] eqn:Htable.
  - destruct (loadURDF sim ((tr ++ [Connect]) ++ [table_call sim]) ROBOT_URDF_PATH)
      as [robot|] eqn:Hrobot.
    + destruct Hnot. exists robot. split; [rewrite Htable; eauto|].
      rewrite <- app_assoc in Hrobot. exact Hrobot.
    + exists ROBOT_URDF_PATH, [table_call sim; robot_call]. split.
      * erewrite bind_Raise by (by eapply load_robot_no_robot).
        rewrite <- !app_assoc. reflexivity.
      * right. eauto.
  - exists (TABLE_URDF_PATH sim), [table_call sim]. split.
    + erewrite bind_Raise by (by apply load_robot_no_table).
      rewrite <- !app_assoc. reflexivity.
    + left. eauto.
Qed.

End InitOutcome.

(** ** The registry, joint by joint *)

(** The last joint reported under a name is the one registered. *)
Lemma registry_last_wins before raw after jointType : forall joints,
  classify raw = Some jointType ->
  info1 raw ∉ info1 <$> after ->
  foldl register joints (before ++ raw :: after) !! info1 raw
    = Some (descriptor raw jointType).
Proof.
  intros joints Hty Hafter. rewrite foldl_app. cbn [foldl].
  rewrite registry_lacks by done. unfold register at 1. rewrite Hty.
  apply lookup_insert_eq.
Qed.

Lemma registry_size raws : forall joints : gmap string Joint.info,
  (size (foldl register joints raws) <= size joints + length raws)%nat.
Proof.
  induction raws as [|raw raws IH]; intros joints; cbn [foldl length]; [lia|].
  etrans; [apply IH|]. unfold register. destruct (classify raw); [|lia].
  rewrite map_size_insert. destruct (joints !! info1 raw); cbn; lia.
Qed.

Lemma registry_size_distinct raws : forall joints : gmap string Joint.info,
  Forall (fun raw => is_Some (classify raw)) raws ->
  NoDup (info1 <$> raws) ->
  (forall raw, raw ∈ raws -> joints !! info1 raw = None) ->
  size (foldl register joints raws) = (size joints + length raws)%nat.
Proof.
  induction raws as [|raw raws IH]; intros joints Hvalid Hnodup Hfresh;
    cbn [foldl length]; [lia|].
  apply Forall_cons in Hvalid as [[jointType Hty] Hvalid].
  cbn in Hnodup. apply NoDup_cons in Hnodup as [Hraw Hnodup].
  rewrite IH; try done.
  - unfold register. rewrite Hty, map_size_insert_None; [lia|].
    apply Hfresh. by left.
  - intros raw' Hin. unfold register. rewrite Hty.
    rewrite lookup_insert_ne; [apply Hfresh; by right|].
    intros Heq. apply Hraw. rewrite Heq. apply list_elem_of_fmap. eauto.
Qed.

Lemma joint_events_queries sim body l :
  filter is_joint_query (l ≫= joint_events sim body) = GetJointInfo body <$> l.
Proof.
  induction l as [|i l IH]; [done|].
  cbn [mbind list_bind fmap list_fmap]. rewrite filter_app, IH.
  unfold joint_events. destruct (is_revolute (getJointInfo sim body i)); reflexivity.
Qed.

Lemma joint_events_startup sim body l :
  Forall startup_event (l ≫= joint_events sim body).
Proof.
  apply Forall_bind, Forall_forall. intros i _. unfold compose, joint_events.
  destruct (is_revolute (getJointInfo sim body i)); repeat constructor.
Qed.

Section Registry.

Context (sim : Simulator).

(** X4: after [__init__], the keys of [self.joints] are exactly the
    names of the joints the simulator reports. *)
Theorem UR5Sim_init_keys tr self tr' :
  UR5Sim_init sim tr = (Ok self, tr') ->
  forall name,
    is_Some (joints self !! name) <-> name ∈ info1 <$> reported_joints sim (ur5 self).
Proof.
  intros Hrun name. apply UR5Sim_init_Ok_inv in Hrun as (_ & Hvalid & Hself & _).
  rewrite Hself. cbn [joints ur5]. split.
  - intros Hsome.
    destruct (decide (name ∈ info1 <$> reported_joints sim (ur5 self))) as [|Hnot]; [done|].
    rewrite registry_lacks, lookup_empty in Hsome by done. by destruct Hsome.
  - intros (raw & -> & Hin)%list_elem_of_fmap.
    apply registry_has; [done|]. rewrite Forall_forall in Hvalid. by apply Hvalid.
Qed.

(** X5: the descriptor registered under a name is built from the last
    joint reported under that name: its id, limits, maximal force and
    velocity are that joint's, its type is the name [joint_type_list]
    gives the joint's type code. *)
Theorem UR5Sim_init_descriptor tr self tr' before raw after :
  UR5Sim_init sim tr = (Ok self, tr') ->
  reported_joints sim (ur5 self) = before ++ raw :: after ->
  info1 raw ∉ info1 <$> after ->
  exists jointType,
    py_getitem joint_type_list (info2 raw) = Some jointType
    /\ joints self !! info1 raw
       = Some (Joint.mk (info0 raw) (info1 raw) jointType (info8 raw) (info9 raw)
                 (info10 raw) (info11 raw) (bool_decide (info1 raw ∈ control_joints))).
Proof.
  intros Hrun Hsplit Hafter.
  apply UR5Sim_init_Ok_inv in Hrun as (_ & Hvalid & Hself & _).
  rewrite Hsplit in Hvalid, Hself.
  apply Forall_app in Hvalid as [_ Hvalid].
  apply Forall_cons in Hvalid as [[jointType Hty] _].
  exists jointType. split; [exact Hty|].
  rewrite Hself. cbn [joints]. by apply registry_last_wins.
Qed.

(** X6: the registry has at most one entry per reported joint, and
    exactly one when the reported names are pairwise distinct. *)
Theorem UR5Sim_init_size tr self tr' :
  UR5Sim_init sim tr = (Ok self, tr') ->
  (size (joints self) <= length (reported_joints sim (ur5 self)))%nat
  /\ (NoDup (info1 <$> reported_joints sim (ur5 self)) ->
      size (joints self) = length (reported_joints sim (ur5 self))).
Proof.
  intros Hrun. apply UR5Sim_init_Ok_inv in Hrun as (_ & Hvalid & Hself & _).
  rewrite Hself. cbn [joints ur5]. split.
  - etrans; [apply registry_size|]. by rewrite map_size_empty.
  - intros Hnodup. rewrite registry_size_distinct, map_size_empty; try done.
Qed.

(** X7: [__init__] asks for the description of each joint index from 0
    to [num_joints - 1] once, in order, and everything it does is
    startup: connecting, loading, counting and describing joints, and
    velocity commands with zero target and zero force.  It sends no
    position command, single or batched, asks for no contacts, never
    steps the simulation, never sleeps and never calls the solver. *)
Theorem UR5Sim_init_queries tr self tr' :
  UR5Sim_init sim tr = (Ok self, tr') ->
  num_joints self = getNumJoints sim (ur5 self)
  /\ filter is_joint_query (drop (length tr) tr')
     = GetJointInfo (ur5 self) <$> range (num_joints self)
  /\ Forall startup_event (drop (length tr) tr').
Proof.
  intros Hrun. apply UR5Sim_init_Ok_inv in Hrun as (_ & _ & Hself & ->).
  rewrite drop_app_length, Hself. cbn [num_joints ur5].
  split; [done|]. split.
  - rewrite filter_app, joint_events_queries. reflexivity.
  - apply Forall_app. split; [repeat constructor | apply joint_events_startup].
Qed.

End Registry.

(** ** More on [set_joint_angles] *)

Lemma collect_items_first_unknown self before name pose after :
  forall poses indexes forces,
  resolves self before ->
  joints self !! name = None ->
  collect_items self (before ++ (name, pose) :: after) poses indexes forces
    = Raise (KeyError name).
Proof.
  induction before as [|[name' pose'] before IH]; intros poses indexes forces Hres Hnone; cbn.
  - by rewrite Hnone.
  - apply resolves_cons in Hres as [[joint ->] Hres]. by apply IH.
Qed.

(** X8: the [KeyError] of [set_joint_angles] names the first key, in the
    order of the configuration, that is not registered; nothing is sent,
    although the keys before it resolved. *)
Theorem set_joint_angles_first_unknown self before name pose after tr :
  resolves self before ->
  joints self !! name = None ->
  set_joint_angles self (before ++ (name, pose) :: after) tr
    = (Raise (KeyError name), tr).
Proof.
  intros Hres Hnone. unfold set_joint_angles.
  by rewrite collect_items_first_unknown.
Qed.

(** A reported joint whose name no later joint bears. *)
Lemma reported_last raws raw :
  NoDup (info1 <$> raws) -> raw ∈ raws ->
  exists before after, raws = before ++ raw :: after /\ info1 raw ∉ info1 <$> after.
Proof.
  intros Hnodup (before & after & ->)%list_elem_of_split.
  exists before, after. split; [done|].
  rewrite fmap_app in Hnodup. apply NoDup_app in Hnodup as (_ & _ & Hnodup).
  cbn in Hnodup. by apply NoDup_cons in Hnodup as [Hnot _].
Qed.

(** What [set_joint_angles] sends after [__init__], in terms of what
    the simulator reported. *)
Lemma set_joint_angles_reported sim tr self tr' joint_angles tr2 :
  UR5Sim_init sim tr = (Ok self, tr') ->
  NoDup (info1 <$> reported_joints sim (ur5 self)) ->
  (forall name, name ∈ joint_angles.*1 ->
     name ∈ info1 <$> reported_joints sim (ur5 self)) ->
  exists indexes poses velocities gains forces,
    set_joint_angles self joint_angles tr2
      = (Ok tt, tr2 ++ [SetJointMotorControlArray (ur5 self) indexes POSITION_CONTROL
                          poses velocities gains forces])
    /\ length indexes = length joint_angles
    /\ forall (i : nat) name pose raw,
         joint_angles !! i = Some (name, pose) ->
         raw ∈ reported_joints sim (ur5 self) -> info1 raw = name ->
         indexes !! i = Some (info0 raw)
         /\ poses !! i = Some pose
         /\ forces !! i = Some (PyFloat (info10 raw)).
Proof.
  intros Hrun Hnodup Hkeys.
  apply UR5Sim_init_Ok_inv in Hrun as (_ & Hvalid & Hself & _).
  assert (Hjoints : joints self = foldl register ∅ (reported_joints sim (ur5 self)))
    by (by rewrite Hself at 1).
  rewrite Forall_forall in Hvalid.
  assert (Hres : resolves self joint_angles).
  { intros name (raw & -> & Hin)%Hkeys%list_elem_of_fmap.
    rewrite Hjoints. apply registry_has; auto. }
  destruct (set_joint_angles_resolved self joint_angles tr2 Hres)
    as (ps & ixs & fs & Heq & _ & Hixs & _ & Hslots).
  do 5 eexists. split; [exact Heq|]. split; [exact Hixs|].
  intros i name pose raw Hi Hin Hname.
  destruct (Hslots i name pose Hi) as (joint & Hjoint & Hpose & Hid & Hforce).
  destruct (reported_last _ _ Hnodup Hin) as (before & after & Hsplit & Hafter).
  destruct (Hvalid raw Hin) as [jointType Hty].
  rewrite Hjoints, Hsplit, <- Hname in Hjoint.
  rewrite (registry_last_wins _ _ _ jointType) in Hjoint by done.
  injection Hjoint as <-. done.
Qed.

(** X9: register, then look up.  After [__init__] on a robot whose
    joint names are pairwise distinct, a configuration whose keys are
    reported names is applied without error, and slot [i] of the command
    holds the id and the maximal force the simulator reported for the
    joint entry [i] names, with the target of that entry. *)
Theorem set_joint_angles_after_init sim tr self tr' joint_angles tr2 :
  UR5Sim_init sim tr = (Ok self, tr') ->
  NoDup (info1 <$> reported_joints sim (ur5 self)) ->
  (forall name, name ∈ joint_angles.*1 ->
     name ∈ info1 <$> reported_joints sim (ur5 self)) ->
  exists indexes poses velocities gains forces,
    set_joint_angles self joint_angles tr2
      = (Ok tt, tr2 ++ [SetJointMotorControlArray (ur5 self) indexes POSITION_CONTROL
                          poses velocities gains forces])
    /\ forall (i : nat) name pose raw,
         joint_angles !! i = Some (name, pose) ->
         raw ∈ reported_joints sim (ur5 self) -> info1 raw = name ->
         indexes !! i = Some (info0 raw)
         /\ poses !! i = Some pose
         /\ forces !! i = Some (PyFloat (info10 raw)).
Proof.
  intros Hrun Hnodup Hkeys.
  destruct (set_joint_angles_reported sim tr self tr' joint_angles tr2 Hrun Hnodup Hkeys)
    as (indexes & poses & velocities & gains & forces & Heq & _ & Hslots).
  eauto 10.
Qed.

(** ** What the control loop sends, and when *)

Lemma actuated_joints_app tr1 tr2 :
  actuated_joints (tr1 ++ tr2) = actuated_joints tr1 ++ actuated_joints tr2.
Proof. apply bind_app. Qed.

Lemma actuated_joints_one e : actuated_joints [e] = actuated e.
Proof. unfold actuated_joints. cbn. apply app_nil_r. Qed.

(** Appending events that are no solver call keeps a trace clocked. *)
Lemma clocked_quiet sim tr es :
  clocked sim tr -> Forall (fun e => goals_of e = None) es -> clocked sim (tr ++ es).
Proof.
  intros Hclocked Hquiet i g time Hi.
  destruct (decide (i < length tr)%nat) as [Hlt|Hge].
  - rewrite lookup_app_l in Hi by done.
    destruct (Hclocked i g time Hi) as (i' & -> & Hclock & ->).
    exists i'. split; [done|].
    rewrite lookup_app_l, take_app_le by lia. done.
  - rewrite lookup_app_r in Hi by lia.
    rewrite Forall_lookup in Hquiet. by specialize (Hquiet _ _ Hi).
Qed.

(** So does reading the clock and handing the reading to the solver. *)
Lemma clocked_solve sim tr g :
  clocked sim tr ->
  clocked sim ((tr ++ [TimeTime]) ++ [SolverSolve g (time_time sim tr)]).
Proof.
  intros Hclocked i g' time Hi. rewrite <- app_assoc in *. cbn [app] in *.
  destruct (decide (i < length tr)%nat) as [Hlt|Hge].
  - rewrite lookup_app_l in Hi by done.
    destruct (Hclocked i g' time Hi) as (i' & -> & Hclock & ->).
    exists i'. split; [done|].
    rewrite lookup_app_l, take_app_le by lia. done.
  - rewrite lookup_app_r in Hi by lia.
    destruct (i - length tr)%nat as [|[|n]] eqn:Hn; cbn in Hi; try discriminate.
    injection Hi as <- <-. exists (length tr). split; [lia|].
    rewrite list_lookup_middle, take_app_length by done. done.
Qed.

Section LoopTrace.

Context (sim : Simulator) (self : UR5Sim).

(** What [set_joint_angles] sends goes to registered joints. *)
Lemma set_joint_angles_registered state tr :
  resolves self state ->
  exists command,
    set_joint_angles self state tr = (Ok tt, tr ++ [command])
    /\ (forall j, j ∈ actuated command ->
          exists name joint, joints self !! name = Some joint /\ Joint.id joint = j)
    /\ goals_of command = None
    /\ is_solver_new command = false.
Proof.
  intros Hres.
  destruct (set_joint_angles_resolved self state tr Hres)
    as (ps & ixs & fs & Heq & _ & Hixs & _ & Hslots).
  eexists. split; [exact Heq|]. repeat split.
  intros j Hj. cbn in Hj. apply list_elem_of_lookup in Hj as [i Hi].
  assert (Hlt : (i < length state)%nat) by (rewrite <- Hixs; by eapply lookup_lt_Some).
  destruct (lookup_lt_is_Some_2 state i Hlt) as [[name pose] Hitem].
  destruct (Hslots i name pose Hitem) as (joint & Hjoint & _ & Hid & _).
  exists name, joint. split; [done|]. congruence.
Qed.

(** A collision check sends nothing to the motors and is no solver call. *)
Lemma check_collisions_passive tr :
  exists b checked,
    check_collisions sim self tr = (Ok b, tr ++ checked)
    /\ actuated_joints checked = []
    /\ Forall (fun e => goals_of e = None) checked
    /\ filter is_solver_new checked = [].
Proof.
  destruct (getContactPoints sim tr) as [|c cs] eqn:Hcs.
  - exists false, [GetContactPoints]. rewrite check_collisions_free by done.
    repeat split; repeat constructor.
  - exists true, (GetContactPoints :: collision_log sim tr).
    erewrite check_collisions_contact by done.
    repeat split; repeat constructor.
Qed.

Lemma control_loop_trace ticks : forall state tr,
  exists (k : nat) new out,
    control_loop sim self ticks state tr = (out, tr ++ new)
    /\ (forall j, j ∈ actuated_joints new ->
          exists name joint, joints self !! name = Some joint /\ Joint.id joint = j)
    /\ omap goals_of new = replicate k loop_goals
    /\ (clocked sim tr -> clocked sim (tr ++ new))
    /\ filter is_solver_new new = []
    /\ (out = Ok tt /\ k = ticks
        \/ (exists name, out = Raise (KeyError name)) /\ (k < ticks)%nat).
Proof.
  induction ticks as [|ticks IH]; intros state tr.
  - exists 0%nat, [], (Ok tt). cbn. rewrite app_nil_r.
    repeat split; auto. intros j Hj. by apply elem_of_nil in Hj.
  - cbn [control_loop]. destruct (resolves_dec self state) as [Hres|Hres].
    + destruct (set_joint_angles_registered state tr Hres)
        as (command & Happly & Hsent & Hquiet & Hnew).
      erewrite bind_Ok by exact Happly.
      destruct (check_collisions_passive (tr ++ [command]))
        as (b & checked & Hcheck & Hpassive & Hchecked & Hchecked').
      erewrite bind_Ok by exact Hcheck.
      rewrite !bind_call.
      set (quiet := [command] ++ checked ++ [StepSimulation; Sleep (1 / 30)]).
      assert (Htr : (((tr ++ [command]) ++ checked) ++ [StepSimulation])
                      ++ [Sleep (1 / 30)] = tr ++ quiet).
      { unfold quiet. by rewrite <- !app_assoc. }
      rewrite Htr.
      match goal with |- context [control_loop _ _ _ ?s ?t] =>
        destruct (IH s t)
          as (k & rest & out & Hrest & Hsent' & Hgoals & Hclocked & Hnew' & Hout)
      end.
      exists (S k),
        (quiet ++ [TimeTime; SolverSolve loop_goals (time_time sim (tr ++ quiet))] ++ rest),
        out.
      assert (Hquiet' : Forall (fun e => goals_of e = None) quiet).
      { unfold quiet. apply Forall_app. split; [by repeat constructor|].
        apply Forall_app. split; [done | by repeat constructor]. }
      split; [|split; [|split; [|split; [|split]]]].
      * rewrite Hrest. f_equal. rewrite <- !app_assoc. reflexivity.
      * intros j. unfold quiet.
        rewrite !actuated_joints_app, Hpassive.
        rewrite actuated_joints_one. cbn [app].
        assert (Hnone : actuated_joints
                  [StepSimulation; Sleep (1 / 30)] = []) by reflexivity.
        assert (Hnone' : forall time, actuated_joints
                  [TimeTime; SolverSolve loop_goals time] = []) by reflexivity.
        rewrite Hnone, Hnone'. rewrite !elem_of_app.
        intros Hj. destruct_or!; try (by apply elem_of_nil in Hj); auto.
      * rewrite !omap_app, Hgoals.
        assert (Hnone : omap goals_of quiet = []).
        { clear -Hquiet'. induction Hquiet' as [|e es He _ IHes]; [done|].
          cbn. by rewrite He. }
        rewrite Hnone. reflexivity.
      * intros Hclock.
        match type of Hclocked with _ -> clocked _ ?t =>
          replace (tr ++ quiet
                   ++ [TimeTime; SolverSolve loop_goals (time_time sim (tr ++ quiet))]
                   ++ rest) with t by (by rewrite <- !app_assoc)
        end.
        apply Hclocked, clocked_solve. by apply clocked_quiet.
      * unfold quiet. rewrite !filter_app, Hchecked', Hnew'.
        destruct command; try discriminate; reflexivity.
      * destruct Hout as [[-> ->]|[Hraise Hlt]]; [left | right]; split; auto; lia.
    + destruct (set_joint_angles_unresolved self state tr Hres)
        as (name & _ & _ & Happly).
      erewrite bind_Raise by exact Happly.
      exists 0%nat, [], (Raise (KeyError name)). rewrite app_nil_r.
      repeat split; try done.
      * intros j Hj. by apply elem_of_nil in Hj.
      * right. split; [eauto | lia].
Qed.

End LoopTrace.

Section Demo.

Context (sim : Simulator).


(** X11: the run keeps the trace clocked: every [solver.solve] it makes
    comes right after a [time.time()] and is given the reading that
    call answered. *)
Theorem run_demo_clocked self ticks tr :
  clocked sim tr -> clocked sim (run_demo sim self ticks tr).2.
Proof.
  intros Hclock. unfold run_demo. rewrite !bind_call.
  match goal with |- context [control_loop _ _ _ ?s ?t] =>
    destruct (control_loop_trace sim self ticks s t)
      as (k & rest & out & Hrest & _ & _ & Hclocked & _)
  end.
  rewrite Hrest. cbn [snd]. apply Hclocked.
  apply (clocked_quiet _ _ [_]); [by apply clocked_solve | by repeat constructor].
Qed.

(** X12: the solver is asked for the same position each time; the
    first call, before the loop, asks for the liveliness size
    (0.11, 0.05, 0.05), and every call of the loop, one per completed
    iteration, for (0.15, 0.05, 0.4). *)
Theorem run_demo_goals self ticks tr :
  exists (k : nat) new out,
    run_demo sim self ticks tr = (out, tr ++ new)
    /\ omap goals_of new
       = mk_goals (0.47, -0.03, 0.64)%float (0.11, 0.05, 0.05)%float
         :: replicate k (mk_goals (0.47, -0.03, 0.64)%float (0.15, 0.05, 0.4)%float)
    /\ (out = Ok tt /\ k = ticks
        \/ (exists name, out = Raise (KeyError name)) /\ (k < ticks)%nat).
Proof.
  unfold run_demo. rewrite !bind_call.
  match goal with |- context [control_loop _ _ _ ?s ?t] =>
    destruct (control_loop_trace sim self ticks s t)
      as (k & rest & out & Hrest & _ & Hgoals & _ & _ & Hout)
  end.
  exists k. eexists. exists out. split; [|split; [|exact Hout]].
  - rewrite Hrest, <- !app_assoc. reflexivity.
  - rewrite !omap_app, Hgoals. reflexivity.
Qed.

(** X13: [demo_simulation] dies with [__init__], before the robot
    description is parsed or a solver is built; otherwise it parses the
    description, builds the solver from that text and computes its
    distance table, once, and the run that follows builds no solver. *)
Theorem demo_simulation_setup ticks tr :
  match UR5Sim_init sim tr with
  | (Raise e, tr') => demo_simulation sim ticks tr = (Raise e, tr')
  | (Ok self, tr') =>
      exists out rest,
        demo_simulation sim ticks tr
        = (out, tr' ++ [EtreeParse ROBOT_URDF_PATH;
                        SolverNew (etree_parse sim ROBOT_URDF_PATH);
                        ComputeAverageDistanceTable] ++ rest)
        /\ filter is_solver_new rest = []
  end.
Proof.
  destruct (UR5Sim_init sim tr) as [[self|e] tr'] eqn:Hinit.
  - unfold demo_simulation. erewrite bind_Ok by exact Hinit.
    rewrite !bind_call. unfold run_demo. rewrite !bind_call.
    match goal with |- context [control_loop _ _ _ ?s ?t] =>
      destruct (control_loop_trace sim self ticks s t)
        as (k & rest & out & Hrest & _ & _ & _ & Hnew & _)
    end.
    exists out. eexists. split.
    + rewrite Hrest, <- !app_assoc. reflexivity.
    + rewrite !filter_app, Hnew. reflexivity.
  - unfold demo_simulation. by erewrite bind_Raise.
Qed.

(** X18: contacts never stop the loop.  Whatever contact points the
    simulator reports, a run whose solver only names registered joints
    raises nothing: each of its iterations completes, with its one
    simulation step. *)
Theorem run_demo_completes self ticks tr :
  (forall tr g time, resolves self (solver_solve sim tr g time)) ->
  exists new,
    run_demo sim self ticks tr = (Ok tt, tr ++ new)
    /\ phases new = concat (replicate ticks tick) ++ [PTime; PSolve]
    /\ length (filter is_step new) = ticks.
Proof. intros Hsolver. by apply run_demo_runs. Qed.

End Demo.

(** ** The debug interface *)

Lemma gui_bind_call {A B : Type} (e : Gui.event) (answer : list Gui.event -> A)
    (k : A -> Gui.M B) tr :
  Gui.bind (Gui.call e answer) k tr = k (answer tr) (tr ++ [e]).
Proof. reflexivity. Qed.

Lemma py_getitem_nonneg {A : Type} (l : list A) (k : Z) :
  0 <= k -> py_getitem l k = l !! Z.to_nat k.
Proof. intros Hk. unfold py_getitem. by rewrite bool_decide_eq_true_2. Qed.

Section Debug.

Context (dbg : Gui.Debugger) (self : UR5Sim).

(** What [add_gui_sliders] does, call by call. *)
Lemma add_gui_sliders_run tr :
  exists added sliders,
    Gui.add_gui_sliders dbg self tr = (Gui.Ok sliders, tr ++ added)
    /\ length added = 6%nat /\ length sliders = 6%nat
    /\ omap (fun e => match e with
                      | Gui.AddUserDebugParameter paramName _ _ _ => Some paramName
                      | _ => None
                      end) added = ["X"; "Y"; "Z"; "Rx"; "Ry"; "Rz"]
    /\ forall k : nat, (k < 6)%nat ->
         sliders !! k = Some (Gui.addUserDebugParameter dbg (tr ++ take k added)).
Proof.
  unfold Gui.add_gui_sliders, Gui.add_slider.
  unfold Gui.bind, Gui.call, Gui.ret. cbn. rewrite <- !app_assoc. cbn [app].
  do 2 eexists. split; [reflexivity|]. repeat split.
  intros k Hk.
  destruct k as [|[|[|[|[|[|k]]]]]]; try lia; cbn [take lookup list_lookup app];
    rewrite ?app_nil_r; reflexivity.
Qed.

(** What [read_gui_sliders] does on a list of sliders. *)
Lemma read_gui_sliders_run sliders tr :
  exists out,
    Gui.read_gui_sliders dbg self (Some sliders) tr
      = (out, tr ++ (Gui.ReadUserDebugParameter <$> take 6 sliders))
    /\ ((6 <= length sliders)%nat
          /\ (exists values, out = Gui.Ok values /\ length values = 6%nat)
        \/ (length sliders < 6)%nat /\ out = Gui.Raise Gui.IndexError).
Proof.
  unfold Gui.read_gui_sliders, Gui.read_slider.
  rewrite !py_getitem_nonneg by lia.
  change (Z.to_nat 0) with 0%nat; change (Z.to_nat 1) with 1%nat;
    change (Z.to_nat 2) with 2%nat; change (Z.to_nat 3) with 3%nat;
    change (Z.to_nat 4) with 4%nat; change (Z.to_nat 5) with 5%nat.
  destruct sliders as [|s0 [|s1 [|s2 [|s3 [|s4 [|s5 sliders]]]]]];
    cbn; unfold Gui.bind, Gui.call, Gui.ret, Gui.raise; rewrite <- ?app_assoc, ?app_nil_r;
    cbn [app]; eexists; (split; [reflexivity|]);
    solve [ right; split; [cbn; lia | reflexivity]
          | left; split; [cbn; lia | eexists; split; reflexivity] ].
Qed.

(** What [read_gui_sliders] returns on six sliders. *)
Lemma read_gui_sliders_values sliders tr :
  length sliders = 6%nat ->
  exists values,
    Gui.read_gui_sliders dbg self (Some sliders) tr
      = (Gui.Ok values, tr ++ (Gui.ReadUserDebugParameter <$> sliders))
    /\ length values = 6%nat
    /\ forall k : nat, (k < 6)%nat ->
         exists item, sliders !! k = Some item
           /\ values !! k
              = Some (Gui.readUserDebugParameter dbg
                        (tr ++ (Gui.ReadUserDebugParameter <$> take k sliders)) item).
Proof.
  intros Hlen. unfold Gui.read_gui_sliders, Gui.read_slider.
  rewrite !py_getitem_nonneg by lia.
  change (Z.to_nat 0) with 0%nat; change (Z.to_nat 1) with 1%nat;
    change (Z.to_nat 2) with 2%nat; change (Z.to_nat 3) with 3%nat;
    change (Z.to_nat 4) with 4%nat; change (Z.to_nat 5) with 5%nat.
  destruct sliders as [|s0 [|s1 [|s2 [|s3 [|s4 [|s5 [|s6 sliders]]]]]]]; try discriminate.
  cbn; unfold Gui.bind, Gui.call, Gui.ret; rewrite <- ?app_assoc; cbn [app].
  eexists. split; [reflexivity|]. split; [reflexivity|].
  intros k Hk.
  destruct k as [|[|[|[|[|[|k]]]]]]; try lia; eexists; (split; [reflexivity|]);
    cbn [take fmap list_fmap lookup list_lookup app]; rewrite ?app_nil_r; reflexivity.
Qed.

(** X14: add, then read.  [add_gui_sliders] adds the six parameters X,
    Y, Z, Rx, Ry, Rz in this order and keeps the six ids it is
    answered: slider [k] is what the simulator answered to the [k]-th of
    these calls.  [read_gui_sliders] on them raises nothing, reads
    exactly these six ids, in the same order, and returns the six values
    it is answered. *)
Theorem read_gui_sliders_after_add tr :
  exists added sliders values,
    Gui.add_gui_sliders dbg self tr = (Gui.Ok sliders, tr ++ added)
    /\ length added = 6%nat
    /\ omap (fun e => match e with
                      | Gui.AddUserDebugParameter paramName _ _ _ => Some paramName
                      | _ => None
                      end) added = ["X"; "Y"; "Z"; "Rx"; "Ry"; "Rz"]
    /\ length sliders = 6%nat
    /\ (forall k : nat, (k < 6)%nat ->
          sliders !! k = Some (Gui.addUserDebugParameter dbg (tr ++ take k added)))
    /\ Gui.read_gui_sliders dbg self (Some sliders) (tr ++ added)
       = (Gui.Ok values, (tr ++ added) ++ (Gui.ReadUserDebugParameter <$> sliders))
    /\ length values = 6%nat
    /\ (forall k : nat, (k < 6)%nat ->
          exists item, sliders !! k = Some item
            /\ values !! k
               = Some (Gui.readUserDebugParameter dbg
                         ((tr ++ added) ++ (Gui.ReadUserDebugParameter <$> take k sliders))
                         item)).
Proof.
  destruct (add_gui_sliders_run tr)
    as (added & sliders & Hadd & Hadded & Hlen & Hnames & Hids).
  destruct (read_gui_sliders_values sliders (tr ++ added) Hlen)
    as (values & Hread & Hvalues & Hanswers).
  exists added, sliders, values. done.
Qed.

(** X15: [read_gui_sliders] without sliders.  While [self.sliders] has
    not been set it raises [AttributeError] and asks the simulator
    nothing; on a list of fewer than six sliders it reads those there
    are and then raises [IndexError]; on six or more it reads the first
    six. *)
Theorem read_gui_sliders_outcome tr :
  Gui.read_gui_sliders dbg self None tr = (Gui.Raise (Gui.AttributeError "sliders"), tr)
  /\ forall sliders,
       exists out,
         Gui.read_gui_sliders dbg self (Some sliders) tr
           = (out, tr ++ (Gui.ReadUserDebugParameter <$> take 6 sliders))
         /\ ((6 <= length sliders)%nat
               /\ (exists values, out = Gui.Ok values /\ length values = 6%nat)
             \/ (length sliders < 6)%nat /\ out = Gui.Raise Gui.IndexError).
Proof. split; [reflexivity|]. intros sliders. apply read_gui_sliders_run. Qed.

End Debug.

Section DebugAfterInit.

Context (sim : Simulator) (dbg : Gui.Debugger).

(** X16: when the simulator reports the six control joints at indices
    1 to 6, in the order of [control_joints] and with these indices as
    ids, [get_joint_angles] asks for the states of exactly the joints,
    in the order, that [set_joint_angles] commands for a configuration
    keyed by the six names in that order. *)
Theorem get_joint_angles_reads_commanded tr self tr' joint_angles tr2 gtr :
  UR5Sim_init sim tr = (Ok self, tr') ->
  NoDup (info1 <$> reported_joints sim (ur5 self)) ->
  joint_angles.*1 = control_joints ->
  (forall (k : nat) name, control_joints !! k = Some name ->
     exists raw, reported_joints sim (ur5 self) !! S k = Some raw
       /\ info1 raw = name /\ info0 raw = Z.of_nat (S k)) ->
  exists indexes poses velocities gains forces,
    set_joint_angles self joint_angles tr2
      = (Ok tt, tr2 ++ [SetJointMotorControlArray (ur5 self) indexes POSITION_CONTROL
                          poses velocities gains forces])
    /\ Gui.get_joint_angles dbg self gtr
       = (Gui.Ok (Gui.state0 <$> Gui.getJointStates dbg gtr (ur5 self) indexes),
          gtr ++ [Gui.GetJointStates (ur5 self) indexes]).
Proof.
  intros Hrun Hnodup Hkeys Hplaces.
  assert (Hreported : forall name, name ∈ joint_angles.*1 ->
            name ∈ info1 <$> reported_joints sim (ur5 self)).
  { intros name Hin. rewrite Hkeys in Hin.
    apply list_elem_of_lookup in Hin as [k Hk].
    destruct (Hplaces k name Hk) as (raw & Hraw & <- & _).
    apply list_elem_of_fmap. exists raw. split; [done|].
    apply list_elem_of_lookup. eauto. }
  destruct (set_joint_angles_reported sim tr self tr' joint_angles tr2
              Hrun Hnodup Hreported)
    as (indexes & poses & velocities & gains & forces & Heq & Hlen & Hslots).
  assert (Hsix : length joint_angles = 6%nat).
  { rewrite <- (length_fmap fst), Hkeys. reflexivity. }
  assert (Hindexes : indexes = [1; 2; 3; 4; 5; 6]).
  { apply list_eq. intros i.
    destruct (decide (i < 6)%nat) as [Hi|Hi].
    - destruct (lookup_lt_is_Some_2 joint_angles i) as [[name pose] Hitem]; [lia|].
      assert (Hname : control_joints !! i = Some name).
      { rewrite <- Hkeys, list_lookup_fmap, Hitem. reflexivity. }
      destruct (Hplaces i name Hname) as (raw & Hraw & Hrawname & Hid).
      destruct (Hslots i name pose raw Hitem) as (-> & _); [|done|].
      { apply list_elem_of_lookup. eauto. }
      rewrite Hid.
      destruct i as [|[|[|[|[|[|i]]]]]]; try lia; reflexivity.
    - rewrite !lookup_ge_None_2; [done | cbn; lia | lia]. }
  subst indexes. do 5 eexists. split; [exact Heq|]. reflexivity.
Qed.

(** X17: after [__init__], [get_current_pose] asks, with forward
    kinematics, for the state of link 7 of the body pybullet loaded the
    robot description as, whatever number of joints that body has.  It
    returns the world position and orientation of the state it is
    answered, and raises [TypeError] when the answer is [None], as it is
    for a body that has no link 7. *)
Theorem get_current_pose_after_init tr self tr' gtr :
  UR5Sim_init sim tr = (Ok self, tr') ->
  loadURDF sim (tr ++ [Connect; table_call sim]) ROBOT_URDF_PATH = Some (ur5 self)
  /\ Gui.get_current_pose dbg self gtr
     = (match Gui.getLinkState dbg gtr (ur5 self) 7 with
        | Some linkstate =>
            Gui.Ok (Gui.linkstate0 linkstate, Gui.linkstate1 linkstate)
        | None => Gui.Raise Gui.TypeError
        end,
        gtr ++ [Gui.GetLinkState (ur5 self) 7 true]).
Proof.
  intros Hrun. apply UR5Sim_init_Ok_inv in Hrun as ([_ Hrobot] & _ & Hself & _).
  split; [exact Hrobot|].
  unfold Gui.get_current_pose. rewrite Hself. cbn [ur5 end_effector_index].
  rewrite gui_bind_call.
  destruct (Gui.getLinkState dbg gtr (ur5 self) 7); reflexivity.
Qed.

End DebugAfterInit.

(** ** Beyond the claims, on the bench *)

(** Type code [-1] counts from the end of [joint_type_list]. *)
Example classify_from_the_end :
  classify (mk_rawInfo 0 "world_joint" (-1) 0 0 0 0) = Some "FIXED".
Proof. reflexivity. Qed.

Lemma UR5Sim_init_IndexError_witness :
  UR5Sim_init ball_bench []
  = (Raise IndexError,
     [] ++ [Connect; table_call ball_bench; robot_call; GetNumJoints 1]
        ++ (range 4 ≫= joint_events ball_bench 1) ++ [GetJointInfo 1 4]).
Proof.
  apply (UR5Sim_init_IndexError ball_bench [] 1 4).
  - split; [eexists|]; vm_compute; reflexivity.
  - vm_compute. split; congruence.
  - intros j Hj.
    assert (Hcases : j = 0 \/ j = 1 \/ j = 2 \/ j = 3 \/ j = 4) by lia.
    destruct_or!; subst j; eexists; vm_compute; reflexivity.
  - intros j Hj.
    assert (Hcases : j = 0 \/ j = 1 \/ j = 2 \/ j = 3) by lia.
    destruct_or!; subst j; vm_compute; split; congruence.
  - vm_compute. intros [_ Hlt]. discriminate.
Defined.

(** Text that decodes, and bytes that do not. *)
Example decode_ascii : decode "wrist_3_link-tool0_fixed_joint"
                       = Some "wrist_3_link-tool0_fixed_joint".
Proof. reflexivity. Qed.

Example decode_two_bytes :
  is_Some (decode (String (Ascii.ascii_of_N 195) (String (Ascii.ascii_of_N 169) ""))).
Proof. eexists. reflexivity. Qed.

Example decode_lone_byte : decode (String (Ascii.ascii_of_N 255) "_joint") = None.
Proof. reflexivity. Qed.

Example decode_overlong :
  decode (String (Ascii.ascii_of_N 192) (String (Ascii.ascii_of_N 128) "")) = None.
Proof. reflexivity. Qed.

Example decode_surrogate :
  decode (String (Ascii.ascii_of_N 237)
            (String (Ascii.ascii_of_N 160) (String (Ascii.ascii_of_N 128) ""))) = None.
Proof. reflexivity. Qed.

Example decode_truncated :
  decode (String (Ascii.ascii_of_N 226) (String (Ascii.ascii_of_N 130) "")) = None.
Proof. reflexivity. Qed.

Lemma UR5Sim_init_UnicodeDecodeError_witness :
  UR5Sim_init mangled_bench []
  = (Raise UnicodeDecodeError,
     [] ++ [Connect; table_call mangled_bench; robot_call; GetNumJoints 1]
        ++ (range 2 ≫= joint_events mangled_bench 1) ++ [GetJointInfo 1 2]).
Proof.
  apply (UR5Sim_init_UnicodeDecodeError mangled_bench [] 1 2).
  - split; [eexists|]; vm_compute; reflexivity.
  - vm_compute. split; congruence.
  - intros j Hj.
    assert (Hcases : j = 0 \/ j = 1) by lia.
    destruct_or!; subst j; eexists; vm_compute; reflexivity.
  - intros j Hj.
    assert (Hcases : j = 0 \/ j = 1) by lia.
    destruct_or!; subst j; vm_compute; split; congruence.
  - vm_compute. reflexivity.
Defined.

Lemma UR5Sim_init_load_error_witness :
  exists path asked,
    UR5Sim_init no_description_bench []
      = (Raise (PybulletError path), [] ++ Connect :: asked)
    /\ (loadURDF no_description_bench ([] ++ [Connect])
          (TABLE_URDF_PATH no_description_bench) = None
        /\ path = TABLE_URDF_PATH no_description_bench
        /\ asked = [table_call no_description_bench]
        \/ is_Some (loadURDF no_description_bench ([] ++ [Connect])
                      (TABLE_URDF_PATH no_description_bench))
           /\ path = ROBOT_URDF_PATH
           /\ asked = [table_call no_description_bench; robot_call]).
Proof.
  apply (UR5Sim_init_load_error no_description_bench []).
  intros (robot & [table Htable] & _). discriminate.
Defined.

Lemma UR5Sim_init_keys_witness :
  is_Some (joints ur5e_self !! "elbow_joint")
  <-> "elbow_joint" ∈ info1 <$> reported_joints ur5e_bench (ur5 ur5e_self).
Proof.
  apply (UR5Sim_init_keys ur5e_bench [] ur5e_self (UR5Sim_init ur5e_bench []).2).
  vm_compute. reflexivity.
Defined.

(** Two joints under one name: the later one is the one registered. *)
Lemma UR5Sim_init_descriptor_witness :
  exists jointType,
    py_getitem joint_type_list 1 = Some jointType
    /\ joints (built twin_joints) !! "elbow_joint"
       = Some (Joint.mk 2 "elbow_joint" jointType 0 0.5 40 1
                 (bool_decide ("elbow_joint" ∈ control_joints))).
Proof.
  apply (UR5Sim_init_descriptor twin_bench [] (built twin_joints)
           (UR5Sim_init twin_bench []).2 (take 2 twin_joints)
           (mk_rawInfo 2 "elbow_joint" 1 0 0.5 40 1) []).
  - vm_compute. reflexivity.
  - vm_compute. reflexivity.
  - cbn. apply not_elem_of_nil.
Defined.

Lemma UR5Sim_init_size_witness :
  (size (joints ur5e_self) <= length (reported_joints ur5e_bench (ur5 ur5e_self)))%nat
  /\ (NoDup (info1 <$> reported_joints ur5e_bench (ur5 ur5e_self)) ->
      size (joints ur5e_self) = length (reported_joints ur5e_bench (ur5 ur5e_self))).
Proof.
  apply (UR5Sim_init_size ur5e_bench [] ur5e_self (UR5Sim_init ur5e_bench []).2).
  vm_compute. reflexivity.
Defined.

Lemma UR5Sim_init_queries_witness :
  num_joints ur5e_self = getNumJoints ur5e_bench (ur5 ur5e_self)
  /\ filter is_joint_query (drop (length (@nil event)) (UR5Sim_init ur5e_bench []).2)
     = GetJointInfo (ur5 ur5e_self) <$> range (num_joints ur5e_self)
  /\ Forall startup_event
       (drop (length (@nil event)) (UR5Sim_init ur5e_bench []).2).
Proof.
  apply (UR5Sim_init_queries ur5e_bench [] ur5e_self (UR5Sim_init ur5e_bench []).2).
  vm_compute. reflexivity.
Defined.

Lemma set_joint_angles_first_unknown_witness :
  set_joint_angles ur5e_self
    ([("elbow_joint", PyFloat 0)] ++ ("gripper", PyFloat 1) :: [("wrist_1_joint", PyFloat 0)])
    []
  = (Raise (KeyError "gripper"), []).
Proof.
  apply (set_joint_angles_first_unknown ur5e_self).
  - unfold resolves. apply Forall_forall, (bool_decide_unpack _). vm_compute. exact I.
  - vm_compute. reflexivity.
Defined.

Lemma set_joint_angles_after_init_witness :
  exists indexes poses velocities gains forces,
    set_joint_angles ur5e_self rest_state []
      = (Ok tt, [] ++ [SetJointMotorControlArray (ur5 ur5e_self) indexes POSITION_CONTROL
                         poses velocities gains forces])
    /\ forall (i : nat) name pose raw,
         rest_state !! i = Some (name, pose) ->
         raw ∈ reported_joints ur5e_bench (ur5 ur5e_self) -> info1 raw = name ->
         indexes !! i = Some (info0 raw)
         /\ poses !! i = Some pose
         /\ forces !! i = Some (PyFloat (info10 raw)).
Proof.
  apply (set_joint_angles_after_init ur5e_bench [] ur5e_self
           (UR5Sim_init ur5e_bench []).2 rest_state []).
  - vm_compute. reflexivity.
  - apply (bool_decide_unpack _). vm_compute. exact I.
  - apply Forall_forall, (bool_decide_unpack _). vm_compute. exact I.
Defined.

Lemma run_demo_clocked_witness :
  clocked ur5e_bench (run_demo ur5e_bench ur5e_self 2 []).2.
Proof.
  apply (run_demo_clocked ur5e_bench ur5e_self 2 []).
  intros i g time Hi. rewrite lookup_nil in Hi. discriminate.
Defined.

Lemma run_demo_completes_witness :
  exists new,
    run_demo contact_bench ur5e_self 2 [] = (Ok tt, [] ++ new)
    /\ phases new = concat (replicate 2 tick) ++ [PTime; PSolve]
    /\ length (filter is_step new) = 2%nat.
Proof.
  apply (run_demo_completes contact_bench ur5e_self 2 []).
  intros tr g time. cbn [contact_bench bench solver_solve].
  unfold resolves. apply Forall_forall, (bool_decide_unpack _). vm_compute. exact I.
Defined.

(** On that bench every check prints its line. *)
Example run_demo_logs_contacts :
  length (filter is_print (run_demo contact_bench ur5e_self 2 []).2) = 3%nat.
Proof. vm_compute. reflexivity. Qed.

Lemma get_joint_angles_reads_commanded_witness :
  exists indexes poses velocities gains forces,
    set_joint_angles ur5e_self rest_state []
      = (Ok tt, [] ++ [SetJointMotorControlArray (ur5 ur5e_self) indexes POSITION_CONTROL
                         poses velocities gains forces])
    /\ Gui.get_joint_angles Gui.bench ur5e_self []
       = (Gui.Ok (Gui.state0 <$> Gui.getJointStates Gui.bench [] (ur5 ur5e_self) indexes),
          [] ++ [Gui.GetJointStates (ur5 ur5e_self) indexes]).
Proof.
  apply (get_joint_angles_reads_commanded ur5e_bench Gui.bench [] ur5e_self
           (UR5Sim_init ur5e_bench []).2 rest_state [] []).
  - vm_compute. reflexivity.
  - apply (bool_decide_unpack _). vm_compute. exact I.
  - reflexivity.
  - intros k name Hk.
    destruct k as [|[|[|[|[|[|k]]]]]]; try discriminate;
      injection Hk as <-; eexists; (split; [vm_compute; reflexivity|]);
      split; reflexivity.
Defined.

Lemma get_current_pose_after_init_witness :
  loadURDF ur5e_bench ([] ++ [Connect; table_call ur5e_bench]) ROBOT_URDF_PATH
  = Some (ur5 ur5e_self)
  /\ Gui.get_current_pose Gui.bench ur5e_self []
     = (match Gui.getLinkState Gui.bench [] (ur5 ur5e_self) 7 with
        | Some linkstate =>
            Gui.Ok (Gui.linkstate0 linkstate, Gui.linkstate1 linkstate)
        | None => Gui.Raise Gui.TypeError
        end,
        [] ++ [Gui.GetLinkState (ur5 ur5e_self) 7 true]).
Proof.
  apply (get_current_pose_after_init ur5e_bench Gui.bench []
           ur5e_self (UR5Sim_init ur5e_bench []).2 []).
  vm_compute. reflexivity.
Defined.

(** The UR5e body has a link 7; the five-axis body, of six links, has
    none, and the pose query dies on the answer. *)
Example get_current_pose_ur5e :
  (Gui.get_current_pose Gui.bench ur5e_self []).1
  = Gui.Ok ([0.4; 0; 0.4]%float, [0; 0; 0; 1]%float).
Proof. reflexivity. Qed.

Example get_current_pose_five_axis :
  Gui.get_current_pose (Gui.bench_of 6) (built five_axis_joints) []
  = (Gui.Raise Gui.TypeError, [Gui.GetLinkState 1 7 true]).
Proof. reflexivity. Qed.
